(** * Pioneer Market Analytics: the dashboard pipeline of [src/Dashboard/app.py]

    A shallow embedding of the data pipeline of the Streamlit script: the
    left joins that build [orders_full], the date-window filter, the RFM
    table with its [rank(method='first')] / [pd.qcut] scoring, the segment
    rule, the per-category summary and the "Key Insights" blocks of the
    four tabs.  The script runs top to bottom, so it is modelled as one
    function in a small error monad whose exceptions are the Python ones
    the script can raise.

    Modelling conventions.
    - Identifiers and category names are [string]s; a pandas NaN in a
      column is [None].
    - Prices and revenues are integers (cents): sums are exact, and ranks
      and quantile edges only depend on the order of the values.
    - Timestamps are [Z] seconds since 1970-01-01 00:00; a calendar date is
      [Z] days since 1970-01-01, so [.dt.date] is [ts / 86400].
    - [pd.qcut] edges: with four quantiles, numpy's linear interpolation of
      integer data gives multiples of 1/4, which are exact in binary floating
      point; the model keeps every edge multiplied by 4. *)

From Stdlib Require Import ZArith String List Bool Lia Permutation Sorted.
Import ListNotations.
Open Scope string_scope.
Open Scope list_scope.
Open Scope Z_scope.

(* ------------------------------------------------------------------ *)
(** ** Utilities *)

Definition sumZ (l : list Z) : Z := fold_right Z.add 0 l.

Definition countb {A} (p : A -> bool) (l : list A) : nat := length (filter p l).

(** [zseq a n] is the list [a; a+1; ...; a+n-1]. *)
Fixpoint zseq (a : Z) (n : nat) : list Z :=
  match n with
  | O => []
  | S n' => a :: zseq (a + 1) n'
  end.

(** Insertion sort by a boolean order; used for [sort_values] and for the
    sorted group keys of [groupby]. *)
Section Isort.
Context {A : Type} (leb : A -> A -> bool).

Fixpoint insert (x : A) (l : list A) : list A :=
  match l with
  | [] => [x]
  | y :: l' => if leb x y then x :: y :: l' else y :: insert x l'
  end.

Fixpoint isort (l : list A) : list A :=
  match l with
  | [] => []
  | x :: l' => insert x (isort l')
  end.
End Isort.

Definition string_dedup (l : list string) : list string := nodup string_dec l.

(** Group keys of a pandas [groupby] with the default [sort=True],
    [dropna=True]: the distinct non-null keys in increasing order. *)
Definition group_keys {A} (key : A -> option string) (rows : list A) : list string :=
  isort String.leb (string_dedup (flat_map (fun r => match key r with
                                                    | Some k => [k]
                                                    | None => []
                                                    end) rows)).

Definition key_is {A} (key : A -> option string) (k : string) (r : A) : bool :=
  match key r with Some k' => String.eqb k' k | None => false end.

(** [nunique] of a non-null string column. *)
Definition nunique (l : list string) : nat := length (string_dedup l).

(* ------------------------------------------------------------------ *)
(** ** Calendar *)

Definition seconds_per_day : Z := 86400.

(** Days since 1970-01-01 of a proleptic Gregorian date. *)
Definition days_from_civil (y m d : Z) : Z :=
  let y := if m <=? 2 then y - 1 else y in
  let era := y / 400 in
  let yoe := y - era * 400 in
  let doy := (153 * (if m >? 2 then m - 3 else m + 9) + 2) / 5 + d - 1 in
  let doe := yoe * 365 + yoe / 4 - yoe / 100 + doy in
  era * 146097 + doe - 719468.

(** (year, month) of a day number; the [to_period('M')] of a date. *)
Definition civil_year_month (z : Z) : Z * Z :=
  let z := z + 719468 in
  let era := z / 146097 in
  let doe := z - era * 146097 in
  let yoe := (doe - doe / 1460 + doe / 36524 - doe / 146096) / 365 in
  let y := yoe + era * 400 in
  let doy := doe - (365 * yoe + yoe / 4 - yoe / 100) in
  let mp := (5 * doy + 2) / 153 in
  let m := if mp <? 10 then mp + 3 else mp - 9 in
  (if m <=? 2 then y + 1 else y, m).

Definition timestamp (y mo d h mi s : Z) : Z :=
  days_from_civil y mo d * seconds_per_day + h * 3600 + mi * 60 + s.

(** [.dt.date], [.dt.hour], [.dt.dayofweek] (Monday = 0). *)
Definition ts_date (ts : Z) : Z := ts / seconds_per_day.
Definition ts_hour (ts : Z) : Z := (ts mod seconds_per_day) / 3600.
Definition ts_dayofweek (ts : Z) : Z := (ts_date ts + 3) mod 7.

Definition weekday_names : list string :=
  ["Monday"; "Tuesday"; "Wednesday"; "Thursday"; "Friday"; "Saturday"; "Sunday"]%string.

(** [.dt.day_name()] *)
Definition ts_day_name (ts : Z) : string :=
  nth (Z.to_nat (ts_dayofweek ts)) weekday_names "Monday"%string.

(* ------------------------------------------------------------------ *)
(** ** Input tables (the four CSV files) *)

Record Customer := {
  c_customer_id : string;
  c_customer_unique_id : string;
  c_customer_state : string
}.

Record Order := {
  o_order_id : string;
  o_customer_id : string;
  o_order_purchase_timestamp : Z
}.

Record OrderItem := {
  i_order_id : string;
  i_product_id : string;
  i_price : Z
}.

Record Product := {
  p_product_id : string;
  p_product_category_name : option string
}.

Record Data := {
  customers : list Customer;
  orders : list Order;
  order_items : list OrderItem;
  products : list Product
}.

(** A row of [orders_full]: the columns the script reads.  The column
    [revenue] is [price] (line 52). *)
Record Row := {
  order_id : string;
  customer_id : string;
  order_purchase_timestamp : Z;
  customer_unique_id : option string;
  customer_state : option string;
  product_id : option string;
  price : option Z;
  product_category_name : option string
}.

Definition revenue (r : Row) : option Z := price r.

(** [DataFrame.merge(..., how='left')]: every left row, followed in the
    right table's order by its matches, or once with the right columns
    null when nothing matches. *)
Definition merge_left {A B C} (matches : A -> B -> bool) (mk : A -> option B -> C)
    (l : list A) (r : list B) : list C :=
  flat_map (fun a => match filter (matches a) r with
                     | [] => [mk a None]
                     | ms => map (fun b => mk a (Some b)) ms
                     end) l.

Definition opt_eqb (o : option string) (s : string) : bool :=
  match o with Some s' => String.eqb s' s | None => false end.

(** line 42: [orders.merge(customers, on='customer_id', how='left')] *)
Definition orders_customers (d : Data) : list Row :=
  merge_left (fun o c => String.eqb (o_customer_id o) (c_customer_id c))
    (fun o oc => {| order_id := o_order_id o;
                    customer_id := o_customer_id o;
                    order_purchase_timestamp := o_order_purchase_timestamp o;
                    customer_unique_id := option_map c_customer_unique_id oc;
                    customer_state := option_map c_customer_state oc;
                    product_id := None; price := None;
                    product_category_name := None |})
    (orders d) (customers d).

Definition with_item (r : Row) (oi : option OrderItem) : Row :=
  {| order_id := order_id r; customer_id := customer_id r;
     order_purchase_timestamp := order_purchase_timestamp r;
     customer_unique_id := customer_unique_id r;
     customer_state := customer_state r;
     product_id := option_map i_product_id oi;
     price := option_map i_price oi;
     product_category_name := product_category_name r |}.

Definition with_product (r : Row) (op : option Product) : Row :=
  {| order_id := order_id r; customer_id := customer_id r;
     order_purchase_timestamp := order_purchase_timestamp r;
     customer_unique_id := customer_unique_id r;
     customer_state := customer_state r;
     product_id := product_id r; price := price r;
     product_category_name :=
       match op with Some p => p_product_category_name p | None => None end |}.

(** lines 45-52: [orders_full] *)
Definition orders_full (d : Data) : list Row :=
  let oi := merge_left (fun r i => String.eqb (order_id r) (i_order_id i))
              with_item (orders_customers d) (order_items d) in
  merge_left (fun r p => opt_eqb (product_id r) (p_product_id p))
    with_product oi (products d).

(** lines 82-85: the boolean mask on [.dt.date]. *)
Definition in_window (start_date end_date : Z) (r : Row) : bool :=
  (start_date <=? ts_date (order_purchase_timestamp r)) &&
  (ts_date (order_purchase_timestamp r) <=? end_date).

Definition filtered_orders (rows : list Row) (start_date end_date : Z) : list Row :=
  filter (in_window start_date end_date) rows.

(* ------------------------------------------------------------------ *)
(** ** Exceptions of the script *)

Inductive exn :=
| NameError (name : string)
| IndexError
| ValueError
| KeyError
| StopException.

Inductive result (A : Type) :=
| Ok (a : A)
| Err (e : exn).
Arguments Ok {A} a.
Arguments Err {A} e.

Definition bind {A B} (m : result A) (k : A -> result B) : result B :=
  match m with Ok a => k a | Err e => Err e end.

Notation "x <- m ;; k" := (bind m (fun x => k))
  (at level 61, m at next level, right associativity).

(* ------------------------------------------------------------------ *)
(** ** [Series.rank(method='first')] and [pd.qcut(..., 4, labels=False)] *)

(** Rank of position [i]: one more than the number of smaller values, plus
    the number of equal values that occur before it. *)
Definition rank_first (xs : list Z) : list Z :=
  map (fun i => let x := nth i xs 0 in
                1 + Z.of_nat (countb (fun y => y <? x) xs)
                  + Z.of_nat (countb (fun y => y =? x) (firstn i xs)))
      (seq 0%nat (length xs)).

(** [Series.quantile(k/4)] with numpy's linear interpolation on the sorted
    values [s], multiplied by 4; [None] is NaN (empty series). *)
Definition quantile4 (s : list Z) (k : Z) : option Z :=
  match s with
  | [] => None
  | _ =>
      let n := Z.of_nat (length s) in
      let h := (n - 1) * k in
      let lo := h / 4 in
      let hi := Z.min (lo + 1) (n - 1) in
      let a := nth (Z.to_nat lo) s 0 in
      let b := nth (Z.to_nat hi) s 0 in
      Some (4 * a + (h mod 4) * (b - a))
  end.

Fixpoint all_some {A} (l : list (option A)) : option (list A) :=
  match l with
  | [] => Some []
  | None :: _ => None
  | Some a :: l' => option_map (cons a) (all_some l')
  end.

(** [np.linspace(0, 1, 5)] quantile edges (times 4) of the values. *)
Definition qcut_edges (xs : list Z) : option (list Z) :=
  all_some (map (quantile4 (isort Z.leb xs)) [0; 1; 2; 3; 4]).

(** [Index.searchsorted(x, side='left')] on sorted edges. *)
Definition searchsorted_left (bins : list Z) (x4 : Z) : Z :=
  Z.of_nat (countb (fun b => b <? x4) bins).

(** [_bins_to_cuts] with [right=True], [include_lowest=True],
    [labels=False]: the code [ids - 1], NaN outside the edges. *)
Definition cut_label (bins : list Z) (x : Z) : option Z :=
  let ids := if 4 * x =? nth 0 bins 0 then 1 else searchsorted_left bins (4 * x) in
  if (ids =? 0) || (ids =? Z.of_nat (length bins)) then None else Some (ids - 1).

(** [pd.qcut(x, 4, labels=False)] with [duplicates='raise']: NaN edges
    (empty input) or repeated edges raise [ValueError]. *)
Definition qcut4 (xs : list Z) : result (list (option Z)) :=
  match qcut_edges xs with
  | None => Err ValueError
  | Some bins =>
      if (length (nodup Z.eq_dec bins) <? length bins)%nat then Err ValueError
      else Ok (map (cut_label bins) xs)
  end.

(** lines 157-159: [pd.qcut(col.rank(method='first'), 4, labels=False) + 1] *)
Definition rfm_score (col : list Z) : result (list (option Z)) :=
  labels <- qcut4 (rank_first col) ;;
  Ok (map (option_map (fun l => l + 1)) labels).

(* ------------------------------------------------------------------ *)
(** ** The segment rule (lines 161-171) *)

Inductive Segment :=
| Champions
| LoyalCustomers
| PotentialLoyalists
| NeedAttention
| LostCustomers.

(** A score cell holds an integer, or NaN where [qcut] gave none; every
    comparison with NaN is false. *)
Definition ge_score (o : option Z) (k : Z) : bool :=
  match o with Some v => k <=? v | None => false end.
Definition eq_score (o : option Z) (k : Z) : bool :=
  match o with Some v => v =? k | None => false end.

Definition rfm_segment (R_score F_score M_score : option Z) : Segment :=
  if ge_score R_score 3 && ge_score F_score 3 && ge_score M_score 3 then Champions
  else if ge_score R_score 3 && ge_score F_score 2 then LoyalCustomers
  else if ge_score R_score 3 then PotentialLoyalists
  else if eq_score R_score 2 then NeedAttention
  else LostCustomers.

(* ------------------------------------------------------------------ *)
(** ** The RFM table (lines 100-173) *)

(** line 100: [filtered_orders.merge(order_items, on='order_id', how='left')];
    the rows of [filtered_orders] already carry their item, so a row of
    the result is that row paired with an item of the same order. *)
Definition remerge_items (filtered : list Row) (items : list OrderItem)
    : list (Row * option OrderItem) :=
  merge_left (fun r i => String.eqb (order_id r) (i_order_id i)) pair filtered items.

(** line 101: [revenue = price_x.fillna(0)], [price_x] being the price of
    the [filtered_orders] row. *)
Definition revenue_x (p : Row * option OrderItem) : Z :=
  match price (fst p) with Some v => v | None => 0 end.

Definition maxZ (l : list Z) : Z := fold_right Z.max (hd 0 l) l.

(** line 144 *)
Definition snapshot_date (filtered : list Row) : Z :=
  maxZ (map order_purchase_timestamp filtered) + seconds_per_day.

Record RfmBase := {
  b_customer_unique_id : string;
  b_recency : Z;
  b_frequency : Z;
  b_monetary : Z
}.

(** lines 146-155: [groupby('customer_unique_id').agg(...)]; the
    [Timedelta.days] of a difference is its floor in days. *)
Definition rfm_base (snapshot : Z) (oi : list (Row * option OrderItem)) : list RfmBase :=
  let key := fun p : Row * option OrderItem => customer_unique_id (fst p) in
  map (fun k =>
         let g := filter (key_is key k) oi in
         {| b_customer_unique_id := k;
            b_recency := (snapshot - maxZ (map (fun p => order_purchase_timestamp (fst p)) g))
                         / seconds_per_day;
            b_frequency := Z.of_nat (nunique (map (fun p => order_id (fst p)) g));
            b_monetary := sumZ (map revenue_x g) |})
      (group_keys key oi).

Record RfmRow := {
  rfm_customer_unique_id : string;
  recency : Z;
  frequency : Z;
  monetary : Z;
  R_score : option Z;
  F_score : option Z;
  M_score : option Z;
  segment : Segment
}.

Fixpoint zip3 {A B C} (a : list A) (b : list B) (c : list C) : list (A * B * C) :=
  match a, b, c with
  | x :: a', y :: b', z :: c' => (x, y, z) :: zip3 a' b' c'
  | _, _, _ => []
  end.

Definition rfm_table (filtered : list Row) (items : list OrderItem) : result (list RfmRow) :=
  let base := rfm_base (snapshot_date filtered) (remerge_items filtered items) in
  rs <- rfm_score (map b_recency base) ;;
  fs <- rfm_score (map b_frequency base) ;;
  ms <- rfm_score (map b_monetary base) ;;
  Ok (map (fun '(b, (r, f, m)) =>
             {| rfm_customer_unique_id := b_customer_unique_id b;
                recency := b_recency b; frequency := b_frequency b;
                monetary := b_monetary b;
                R_score := r; F_score := f; M_score := m;
                segment := rfm_segment r f m |})
          (combine base (zip3 rs fs ms))).

(* ------------------------------------------------------------------ *)
(** ** Tab 1 "Key Insights" (lines 243-296) *)

Definition segment_name (s : Segment) : string :=
  match s with
  | Champions => "Champions"
  | LoyalCustomers => "Loyal Customers"
  | PotentialLoyalists => "Potential Loyalists"
  | NeedAttention => "Need Attention"
  | LostCustomers => "Lost Customers"
  end.

(** [rfm.groupby('Segment').agg(customers=..., revenue=...)] *)
Definition segment_summary (rfm : list RfmRow) : list (string * Z * Z) :=
  let key := fun r : RfmRow => Some (segment_name (segment r)) in
  map (fun k => let g := filter (key_is key k) rfm in
                (k, Z.of_nat (length g), sumZ (map monetary g)))
      (group_keys key rfm).

(** [.iloc[0]] *)
Definition iloc0 {A} (l : list A) : result A :=
  match l with [] => Err IndexError | x :: _ => Ok x end.

(** The findings are recorded by their headline; the formatted numbers
    are not modelled.  [rfm] is [None] when the name is unbound. *)
Definition tab1_insights (rfm : option (list RfmRow)) : result (list string) :=
  match rfm with
  | None => Err (NameError "rfm")
  | Some t =>
      let ss := segment_summary t in
      _ <- iloc0 ss ;;
      let seg_in := fun names => existsb (fun '(k, _, _) =>
                        existsb (String.eqb k) names) ss in
      Ok (["Revenue Concentration"%string]
          ++ (if seg_in ["Lost Customers"%string] then ["Customer Attrition Risk"%string] else [])
          ++ (if seg_in ["Potential Loyalists"; "Need Attention"]%string
              then ["Growth Opportunity"%string] else []))
  end.

(* ------------------------------------------------------------------ *)
(** ** Tab 2 (lines 298-457) *)

(** [groupby(ts.dt.day_name()).size().reindex([...seven names...])]:
    a name absent from the groups gets NaN. *)
Definition daily_summary (filtered : list Row) : list (string * option Z) :=
  map (fun nm =>
         let c := countb (fun r => String.eqb (ts_day_name (order_purchase_timestamp r)) nm)
                         filtered in
         (nm, if (c =? 0)%nat then None else Some (Z.of_nat c)))
      weekday_names.

(** [groupby(ts.dt.hour).size()]: the hours that occur, increasing. *)
Definition hourly_summary (filtered : list Row) : list (Z * Z) :=
  let hs := map (fun r => ts_hour (order_purchase_timestamp r)) filtered in
  map (fun h => (h, Z.of_nat (countb (Z.eqb h) hs)))
      (isort Z.leb (nodup Z.eq_dec hs)).

(** [groupby(ts.dt.to_period('M')).size()]: a month as [12 * year + month - 1]. *)
Definition month_index (ts : Z) : Z :=
  let '(y, m) := civil_year_month (ts_date ts) in 12 * y + m - 1.

Definition monthly_summary (filtered : list Row) : list (Z * Z) :=
  let ms := map (fun r => month_index (order_purchase_timestamp r)) filtered in
  map (fun p => (p, Z.of_nat (countb (Z.eqb p) ms)))
      (isort Z.leb (nodup Z.eq_dec ms)).

(** [Series.idxmax()] (skipping NaN): the label of the first maximum; an
    empty or all-NaN series has none and the lookup fails. *)
Fixpoint idxmax_go {K} (best : option (K * Z)) (l : list (K * option Z)) : option K :=
  match l with
  | [] => option_map fst best
  | (k, None) :: l' => idxmax_go best l'
  | (k, Some v) :: l' =>
      match best with
      | Some (_, bv) => if bv <? v then idxmax_go (Some (k, v)) l' else idxmax_go best l'
      | None => idxmax_go (Some (k, v)) l'
      end
  end.

Definition idxmax {K} (l : list (K * option Z)) : result K :=
  match idxmax_go None l with Some k => Ok k | None => Err ValueError end.

Definition day_type (ts : Z) : string :=
  if 5 <=? ts_dayofweek ts then "Weekend" else "Weekday".

(** lines 410-415 *)
Definition day_type_summary (filtered : list Row) : list (string * Z) :=
  let key := fun r => Some (day_type (order_purchase_timestamp r)) in
  map (fun k => (k, Z.of_nat (countb (key_is key k) filtered)))
      (group_keys key filtered).

(** [df[df['day_type'] == k]['Total Transactions'].values[0]] *)
Definition values0_of (s : list (string * Z)) (k : string) : result Z :=
  match filter (fun p => String.eqb (fst p) k) s with
  | [] => Err IndexError
  | p :: _ => Ok (snd p)
  end.

Fixpoint last_two {A} (l : list A) : option (A * A) :=
  match l with
  | [] | [_] => None
  | [a; b] => Some (a, b)
  | _ :: l' => last_two l'
  end.

Definition tab2_insights (filtered : list Row) : result (list string) :=
  _ <- idxmax (daily_summary filtered) ;;
  _ <- idxmax (map (fun '(h, c) => (h, Some c)) (hourly_summary filtered)) ;;
  let dts := day_type_summary filtered in
  weekend <- values0_of dts "Weekend" ;;
  weekday <- values0_of dts "Weekday" ;;
  let f1 := if weekday <? weekend then "Weekend-Dominant Behavior"
            else "Weekday-Dominant Behavior" in
  let f2 := match last_two (monthly_summary filtered) with
            | Some ((_, c1), (_, c2)) =>
                if 0 <? c2 - c1 then ["Positive Momentum"] else ["Demand Slowdown Signal"]
            | None => []
            end in
  Ok (["Peak Transaction Day"%string; "Peak Operating Hour"%string; f1] ++ f2).

(* ------------------------------------------------------------------ *)
(** ** Tab 3 (lines 459-579) *)

Record CatRow := {
  cat_name : string;
  cat_revenue : Z;
  cat_total_orders : Z;
  cat_product_count : Z
}.

Definition revenue0 (r : Row) : Z := match revenue r with Some v => v | None => 0 end.

Definition opt_list {A} (o : option A) : list A := match o with Some a => [a] | None => [] end.

(** [groupby('product_category_name').agg(revenue=('revenue','sum'),
    total_orders=('order_id','nunique'), product_count=('product_id','nunique'))];
    the sum skips NaN, [nunique] does not count NaN. *)
Definition category_summary_of (rows : list Row) : list CatRow :=
  map (fun k => let g := filter (key_is product_category_name k) rows in
                {| cat_name := k;
                   cat_revenue := sumZ (map revenue0 g);
                   cat_total_orders := Z.of_nat (nunique (map order_id g));
                   cat_product_count :=
                     Z.of_nat (nunique (flat_map (fun r => opt_list (product_id r)) g)) |})
      (group_keys product_category_name rows).

(** lines 462-474: the table is built when [orders_full] is not empty;
    otherwise the name stays unbound. *)
Definition tab3_category_summary (full : list Row) : option (list CatRow) :=
  if (length full =? 0)%nat then None else Some (category_summary_of full).

Definition tab3_insights (cs : option (list CatRow)) : result (list string) :=
  match cs with
  | None => Err (NameError "category_summary")
  | Some t =>
      _ <- iloc0 t ;;
      Ok ["Revenue Driver"; "Portfolio Concentration"; "High-Value Transactions"]%string
  end.

(* ------------------------------------------------------------------ *)
(** ** Tab 4 (lines 582-741) *)

Record GeoRow := {
  geo_state : string;
  geo_total_revenue : Z;
  geo_total_orders : Z;
  geo_total_customers : Z
}.

Definition geo_summary_of (filtered : list Row) : list GeoRow :=
  map (fun k => let g := filter (key_is customer_state k) filtered in
                {| geo_state := k;
                   geo_total_revenue := sumZ (map revenue0 g);
                   geo_total_orders := Z.of_nat (nunique (map order_id g));
                   geo_total_customers :=
                     Z.of_nat (nunique (flat_map (fun r => opt_list (customer_unique_id r)) g)) |})
      (group_keys customer_state filtered).

(** lines 584-688: inside the guard, the two [idxmax] lookups. *)
Definition tab4_body (filtered : list Row) : result (option (list GeoRow)) :=
  if (length filtered =? 0)%nat then Ok None
  else
    let gs := geo_summary_of filtered in
    _ <- idxmax (map (fun g => (geo_state g, Some (geo_total_revenue g))) gs) ;;
    _ <- idxmax (map (fun g => (geo_state g, Some (geo_total_orders g))) gs) ;;
    Ok (Some gs).

Definition tab4_insights (gs : option (list GeoRow)) : result (list string) :=
  match gs with
  | None => Err (NameError "geo_summary")
  | Some t =>
      _ <- iloc0 t ;;
      Ok ["Revenue Stronghold"; "Transaction Hotspot"; "Behavioral Gap Across Regions"]%string
  end.

(* ------------------------------------------------------------------ *)
(** ** The KPI row (lines 97-110) and the peak lookups of tab 2 *)

(** [order_items['revenue'].sum()] after the merge of line 100. *)
Definition kpi_total_revenue (filtered : list Row) (items : list OrderItem) : Z :=
  sumZ (map revenue_x (remerge_items filtered items)).

(** [filtered_orders['order_id'].nunique()] (also the caption, line 94). *)
Definition kpi_total_orders (filtered : list Row) : nat :=
  nunique (map order_id filtered).

(** [filtered_orders['customer_unique_id'].nunique()]: NaN is not counted. *)
Definition kpi_total_customers (filtered : list Row) : nat :=
  nunique (flat_map (fun r => opt_list (customer_unique_id r)) filtered).

(** The number of transactions of day [nm], as [daily_summary] counts them. *)
Definition day_count (filtered : list Row) (nm : string) : nat :=
  countb (fun r => String.eqb (ts_day_name (order_purchase_timestamp r)) nm) filtered.

(** line 379: the day name of the row that [idxmax] picks in [daily_summary]. *)
Definition peak_day (filtered : list Row) : result string :=
  idxmax (daily_summary filtered).

(** The number of transactions in hour [h], as [hourly_summary] counts them. *)
Definition hour_count (filtered : list Row) (h : Z) : nat :=
  countb (Z.eqb h) (map (fun r => ts_hour (order_purchase_timestamp r)) filtered).

(** line 396: the hour of the row that [idxmax] picks in [hourly_summary]. *)
Definition peak_hour (filtered : list Row) : result Z :=
  idxmax (map (fun '(h, c) => (h, Some c)) (hourly_summary filtered)).

(* ------------------------------------------------------------------ *)
(** ** The script, top to bottom *)

Record Output := {
  out_filtered : list Row;
  out_rfm : option (list RfmRow);
  out_category_summary : option (list CatRow);
  out_geo_summary : option (list GeoRow);
  out_findings : list string
}.

(** One run of [app.py] for the sidebar dates (day numbers).  [st.stop()]
    raises Streamlit's [StopException].  The chart-only parts of the tabs
    raise nothing on their inputs and are left out. *)
Definition run_script (d : Data) (start_date end_date : Z) : result Output :=
  if end_date <? start_date then Err StopException
  else
    let full := orders_full d in
    let filtered := filtered_orders full start_date end_date in
    let nonempty := negb (length filtered =? 0)%nat in
    (* tab 1 *)
    rfm <- (if nonempty then t <- rfm_table filtered (order_items d) ;; Ok (Some t)
            else Ok None) ;;
    f1 <- tab1_insights rfm ;;
    (* tab 2 *)
    f2 <- tab2_insights filtered ;;
    (* tab 3 *)
    let cs := tab3_category_summary full in
    f3 <- tab3_insights cs ;;
    (* tab 4 *)
    gs <- tab4_body filtered ;;
    f4 <- tab4_insights gs ;;
    Ok {| out_filtered := filtered; out_rfm := rfm; out_category_summary := cs;
          out_geo_summary := gs; out_findings := f1 ++ f2 ++ f3 ++ f4 |}.

(* ------------------------------------------------------------------ *)
(** ** Concrete datasets *)

Definition date (y m d : Z) : Z := days_from_civil y m d.

(** The sidebar's default range, [min_date_allowed] .. [max_date_allowed]. *)
Definition min_date_allowed : Z := date 2016 1 1.
Definition max_date_allowed : Z := date 2018 12 31.

Definition cust (id uid st : string) : Customer :=
  {| c_customer_id := id; c_customer_unique_id := uid; c_customer_state := st |}.
Definition ord (id cid : string) (ts : Z) : Order :=
  {| o_order_id := id; o_customer_id := cid; o_order_purchase_timestamp := ts |}.
Definition item (oid pid : string) (p : Z) : OrderItem :=
  {| i_order_id := oid; i_product_id := pid; i_price := p |}.
Definition prod (pid : string) (c : option string) : Product :=
  {| p_product_id := pid; p_product_category_name := c |}.

Definition four_customers : list Customer :=
  [cust "c1" "u1" "SP"; cust "c2" "u2" "RJ"; cust "c3" "u3" "MG"; cust "c4" "u4" "SP"].

Definition two_products : list Product :=
  [prod "p1" (Some "moveis"); prod "p2" (Some "beleza")].

(** Four customers, one order each, all in January 2017, on Monday
    2 to Thursday 5 and Monday 9 to Friday 13 (weekdays only). *)
Definition january_weekdays : Data :=
  {| customers := four_customers;
     orders := [ord "o1" "c1" (timestamp 2017 1 2 10 0 0);
                ord "o2" "c2" (timestamp 2017 1 3 11 0 0);
                ord "o3" "c3" (timestamp 2017 1 10 12 0 0);
                ord "o4" "c4" (timestamp 2017 1 13 13 0 0)];
     order_items := [item "o1" "p1" 100; item "o2" "p2" 50;
                     item "o3" "p1" 70; item "o4" "p2" 20];
     products := two_products |}.

(** Orders in January 2017 (one customer, furniture) and in February 2017
    (two customers, beauty; Monday 6 and Saturday 11). *)
Definition january_february : Data :=
  {| customers := four_customers;
     orders := [ord "o1" "c1" (timestamp 2017 1 10 9 0 0);
                ord "o2" "c2" (timestamp 2017 2 6 10 0 0);
                ord "o3" "c3" (timestamp 2017 2 11 15 30 0)];
     order_items := [item "o1" "p1" 300; item "o2" "p2" 40; item "o3" "p2" 60];
     products := two_products |}.

(** Customer u1 has one order with two items (10 and 20, Monday
    2017-03-06); customer u2 one order with one item (5, Saturday
    2017-03-11). *)
Definition two_item_order : Data :=
  {| customers := four_customers;
     orders := [ord "o1" "c1" (timestamp 2017 3 6 9 0 0);
                ord "o2" "c2" (timestamp 2017 3 11 16 0 0)];
     order_items := [item "o1" "p1" 10; item "o1" "p2" 20; item "o2" "p2" 5];
     products := two_products |}.

(** A product with no category: customer u1 buys it for 50 on a Monday,
    customer u2 a beauty product for 30 on a Saturday. *)
Definition uncategorised_product : Data :=
  {| customers := four_customers;
     orders := [ord "o1" "c1" (timestamp 2017 3 6 9 0 0);
                ord "o2" "c2" (timestamp 2017 3 11 16 0 0)];
     order_items := [item "o1" "p3" 50; item "o2" "p2" 30];
     products := prod "p3" None :: two_products |}.

(** A score column of six customers with distinct values. *)
Definition six_values : list Z := [10; 20; 30; 40; 50; 60].

(* ------------------------------------------------------------------ *)
(** ** Statements of the specification *)

(** The priority table of the specification (section 4.4), read as a list
    of rules tried in order, the first match giving the segment. *)
Definition spec_priority_table : list ((Z -> Z -> Z -> bool) * Segment) :=
  [ ((fun r f m => (3 <=? r) && (3 <=? f) && (3 <=? m)), Champions);
    ((fun r f m => (3 <=? r) && (2 <=? f)), LoyalCustomers);
    ((fun r f m => 3 <=? r), PotentialLoyalists);
    ((fun r f m => r =? 2), NeedAttention) ].

Fixpoint first_match (rules : list ((Z -> Z -> Z -> bool) * Segment)) (r f m : Z) : Segment :=
  match rules with
  | [] => LostCustomers
  | (p, s) :: rules' => if p r f m then s else first_match rules' r f m
  end.

Definition spec_segment (r f m : Z) : Segment := first_match spec_priority_table r f m.

Definition row_dates (rows : list Row) : list Z :=
  map (fun r => ts_date (order_purchase_timestamp r)) rows.

Definition minZ (l : list Z) : Z := fold_right Z.min (hd 0 l) l.

(** The claim on the day-of-week summary: every weekday without a
    transaction is listed with the count 0. *)
Definition daily_zero_claim : Prop :=
  forall filtered nm,
    In nm weekday_names ->
    Forall (fun r => ts_day_name (order_purchase_timestamp r) <> nm) filtered ->
    In (nm, Some 0) (daily_summary filtered).

(** The claim on the category summary: its revenues add up to the revenue
    of the rows of the window. *)
Definition category_partition_claim : Prop :=
  forall d start_date end_date out cs,
    run_script d start_date end_date = Ok out ->
    out_category_summary out = Some cs ->
    sumZ (map cat_revenue cs) = sumZ (map revenue0 (out_filtered out)).

(** The number of customers whose score is [k]. *)
Definition score_count (k : Z) (ss : list Z) : nat := countb (Z.eqb k) ss.

(** Section 4.4's rule for uneven quartile bins: with N customers, bin
    [k] holds ceil(N/4) customers when [k <= N mod 4] (the extra customers
    in the earliest bins) and floor(N/4) otherwise. *)
Definition earliest_bins_claim : Prop :=
  forall xs ss,
    (4 <= length xs)%nat ->
    rfm_score xs = Ok (map Some ss) ->
    forall k, 1 <= k <= 4 ->
      Z.of_nat (score_count k ss) =
        if k <=? Z.of_nat (length xs) mod 4 then (Z.of_nat (length xs) + 3) / 4
        else Z.of_nat (length xs) / 4.

(* ================================================================== *)
(** * Theorems *)

(** ** General facts *)

Lemma fold_max_ge (l : list Z) (d x : Z) : In x l -> x <= fold_right Z.max d l.
Proof.
  induction l as [|a l IH]; simpl; [tauto|].
  intros [<-|H]; [lia|]. specialize (IH H). lia.
Qed.

Lemma fold_min_le (l : list Z) (d x : Z) : In x l -> fold_right Z.min d l <= x.
Proof.
  induction l as [|a l IH]; simpl; [tauto|].
  intros [<-|H]; [lia|]. specialize (IH H). lia.
Qed.

Lemma filter_all_true {A} (p : A -> bool) (l : list A) :
  (forall x, In x l -> p x = true) -> filter p l = l.
Proof.
  induction l as [|a l IH]; simpl; intros H; [reflexivity|].
  rewrite (H a (or_introl eq_refl)), IH; auto.
Qed.

Lemma Forall_string_eq {A} (f : A -> string) (s : string) (l : list A) :
  forallb (fun x => String.eqb (f x) s) l = true -> Forall (fun x => f x = s) l.
Proof.
  intros H. apply Forall_forall. intros x Hx.
  rewrite forallb_forall in H. apply String.eqb_eq, H, Hx.
Qed.

Lemma Forall_string_neq {A} (f : A -> string) (s : string) (l : list A) :
  forallb (fun x => negb (String.eqb (f x) s)) l = true -> Forall (fun x => f x <> s) l.
Proof.
  intros H. apply Forall_forall. intros x Hx.
  rewrite forallb_forall in H. specialize (H x Hx).
  apply negb_true_iff, String.eqb_neq in H. exact H.
Qed.

(** ** Sums over groups *)

Lemma insert_perm {A} (leb : A -> A -> bool) (x : A) (l : list A) :
  Permutation (insert leb x l) (x :: l).
Proof.
  induction l as [|y l IH]; simpl; [reflexivity|].
  destruct (leb x y); [reflexivity|].
  rewrite IH. apply perm_swap.
Qed.

Lemma isort_perm {A} (leb : A -> A -> bool) (l : list A) : Permutation (isort leb l) l.
Proof.
  induction l as [|x l IH]; simpl; [reflexivity|].
  rewrite insert_perm, IH. reflexivity.
Qed.

Lemma sumZ_perm (l l' : list Z) : Permutation l l' -> sumZ l = sumZ l'.
Proof.
  induction 1; simpl; lia.
Qed.

Lemma sumZ_map_add {A} (f g : A -> Z) (l : list A) :
  sumZ (map (fun x => f x + g x) l) = sumZ (map f l) + sumZ (map g l).
Proof.
  induction l as [|a l IH]; simpl; lia.
Qed.

Definition has_key {A} (key : A -> option string) (r : A) : bool :=
  match key r with Some _ => true | None => false end.

Lemma group_keys_NoDup {A} (key : A -> option string) (rows : list A) :
  NoDup (group_keys key rows).
Proof.
  unfold group_keys, string_dedup.
  eapply Permutation_NoDup; [symmetry; apply isort_perm|apply NoDup_nodup].
Qed.

Lemma group_keys_In {A} (key : A -> option string) (rows : list A) r k :
  In r rows -> key r = Some k -> In k (group_keys key rows).
Proof.
  intros Hr Hk. unfold group_keys, string_dedup.
  eapply Permutation_in; [symmetry; apply isort_perm|].
  apply nodup_In, in_flat_map. exists r. rewrite Hk. simpl. auto.
Qed.

Lemma sum_indicator (k0 : string) (x : Z) (K : list string) :
  NoDup K ->
  sumZ (map (fun k => if String.eqb k0 k then x else 0) K) = if in_dec string_dec k0 K then x else 0.
Proof.
  induction 1 as [|k K Hnot Hnd IH]; simpl; [reflexivity|].
  rewrite IH. destruct (String.eqb_spec k0 k) as [<-|Hne].
  - destruct (string_dec k0 k0); [|congruence].
    destruct (in_dec string_dec k0 K); [contradiction|lia].
  - destruct (string_dec k k0); [congruence|].
    destruct (in_dec string_dec k0 K); lia.
Qed.

(** Adding up, over a duplicate-free list of keys that covers every key of
    the rows, the values of each key's rows gives the values of the rows
    that have a key. *)
Lemma sum_groups {A} (key : A -> option string) (v : A -> Z) (K : list string) (rows : list A) :
  NoDup K ->
  (forall r k, In r rows -> key r = Some k -> In k K) ->
  sumZ (map (fun k => sumZ (map v (filter (key_is key k) rows))) K) =
  sumZ (map v (filter (has_key key) rows)).
Proof.
  intros Hnd. induction rows as [|a rows IH]; intros Hcov; simpl.
  - clear Hcov Hnd. induction K; simpl; auto.
  - rewrite (map_ext (fun k => sumZ (map v (if key_is key k a then a :: filter (key_is key k) rows
                                              else filter (key_is key k) rows)))
                     (fun k => (if key_is key k a then v a else 0)
                               + sumZ (map v (filter (key_is key k) rows)))).
    2:{ intros k. destruct (key_is key k a); simpl; lia. }
    rewrite sumZ_map_add, IH by (intros r k Hr; apply Hcov; simpl; auto).
    unfold key_is, has_key. destruct (key a) as [k0|] eqn:Hk.
    + rewrite sum_indicator by exact Hnd.
      destruct (in_dec string_dec k0 K) as [_|Hn]; [simpl; lia|].
      exfalso. apply Hn, (Hcov a); simpl; auto.
    + simpl. clear. induction K; simpl; lia.
Qed.

(** ** C1: the segment rule *)

(** C1 (as amended). The segment of a customer is a function of its three
    scores only, equal on every integer triple (in particular on
    {1,2,3,4}^3) to the specification's priority table tried in order with
    the first match winning; on the worked examples it gives (3,3,1) ->
    Loyal Customers, (3,1,1) -> Potential Loyalists, (2,4,4) -> Need
    Attention and (1,4,4) -> Lost Customers. *)
Theorem rfm_segment_matches_priority_table :
  (forall R F M : Z, rfm_segment (Some R) (Some F) (Some M) = spec_segment R F M) /\
  rfm_segment (Some 3) (Some 3) (Some 1) = LoyalCustomers /\
  rfm_segment (Some 3) (Some 1) (Some 1) = PotentialLoyalists /\
  rfm_segment (Some 2) (Some 4) (Some 4) = NeedAttention /\
  rfm_segment (Some 1) (Some 4) (Some 4) = LostCustomers.
Proof.
  split; [|repeat split; reflexivity].
  intros R F M. unfold rfm_segment, spec_segment, spec_priority_table; simpl.
  destruct (3 <=? R), (3 <=? F), (3 <=? M), (2 <=? F), (R =? 2); reflexivity.
Qed.

(** C1 (counterexample). The worked example (R=3, F=3, M=1) is not a
    Champion: M=1 fails the first rule, and the second rule gives Loyal
    Customers, in the code as in the priority table. *)
Lemma rfm_segment_331_not_champions :
  rfm_segment (Some 3) (Some 3) (Some 1) <> Champions /\
  spec_segment 3 3 1 <> Champions.
Proof. split; discriminate. Qed.

(** ** C8: the date-window filter *)

(** C8. A row is kept by the filter iff the calendar date of its purchase
    timestamp lies between the two dates, both included (the time of day
    plays no part); and when the window covers every date of the rows the
    filter returns the rows unchanged. *)
Theorem filtered_orders_window :
  (forall rows start_date end_date r,
      In r (filtered_orders rows start_date end_date) <->
      In r rows /\ start_date <= ts_date (order_purchase_timestamp r) <= end_date) /\
  (forall rows start_date end_date,
      start_date <= minZ (row_dates rows) ->
      maxZ (row_dates rows) <= end_date ->
      filtered_orders rows start_date end_date = rows).
Proof.
  split.
  - intros rows s e r. unfold filtered_orders, in_window.
    rewrite filter_In, andb_true_iff, Z.leb_le, Z.leb_le. tauto.
  - intros rows s e Hs He. unfold filtered_orders.
    apply filter_all_true. intros r Hr. unfold in_window.
    assert (Hin : In (ts_date (order_purchase_timestamp r)) (row_dates rows))
      by (unfold row_dates; apply in_map_iff; eauto).
    pose proof (fold_min_le _ (hd 0 (row_dates rows)) _ Hin).
    pose proof (fold_max_ge _ (hd 0 (row_dates rows)) _ Hin).
    unfold minZ, maxZ in *.
    apply andb_true_iff; split; apply Z.leb_le; lia.
Qed.

Lemma filtered_orders_window_witness :
  filtered_orders (orders_full january_weekdays) min_date_allowed max_date_allowed
  = orders_full january_weekdays.
Proof.
  apply (proj2 filtered_orders_window).
  - apply Z.leb_le. vm_compute. reflexivity.
  - apply Z.leb_le. vm_compute. reflexivity.
Defined.

(** ** C7: the day-of-week summary *)

Lemma countb_zero_Forall {A} (p : A -> bool) (l : list A) :
  countb p l = 0%nat <-> Forall (fun x => p x = false) l.
Proof.
  unfold countb. induction l as [|a l IH]; simpl.
  - split; auto.
  - destruct (p a) eqn:Ha; simpl.
    + split; [discriminate|]. intros H; inversion H; congruence.
    + rewrite IH. split; [auto|]. intros H; inversion H; auto.
Qed.

(** C7 (as amended). The day-of-week summary lists the seven names Monday
    to Sunday in calendar order whatever the window; a name carries no
    count (NaN) exactly when no row of the window falls on that day, and
    otherwise carries the positive number of rows on that day. *)
Theorem daily_summary_weekdays (filtered : list Row) :
  map fst (daily_summary filtered) = weekday_names /\
  (forall nm c, In (nm, c) (daily_summary filtered) ->
     (c = None <-> Forall (fun r => ts_day_name (order_purchase_timestamp r) <> nm) filtered) /\
     (forall v, c = Some v ->
        v = Z.of_nat (countb (fun r => String.eqb (ts_day_name (order_purchase_timestamp r)) nm)
                             filtered) /\ 0 < v)).
Proof.
  split.
  - unfold daily_summary. rewrite map_map. simpl. reflexivity.
  - intros nm c Hin. unfold daily_summary in Hin.
    apply in_map_iff in Hin as [nm' [Heq _]]. injection Heq as <- <-.
    set (p := fun r => String.eqb (ts_day_name (order_purchase_timestamp r)) nm').
    assert (Hz : countb p filtered = 0%nat <->
                 Forall (fun r => ts_day_name (order_purchase_timestamp r) <> nm') filtered).
    { rewrite countb_zero_Forall. split; intros H; eapply Forall_impl; try exact H;
        intros r; unfold p; rewrite String.eqb_neq; auto. }
    destruct (countb p filtered =? 0)%nat eqn:E.
    + apply Nat.eqb_eq in E. split; [split; [intros _; apply Hz; exact E|reflexivity]|].
      intros v; discriminate.
    + apply Nat.eqb_neq in E. split.
      * split; [discriminate|]. intros H. exfalso. apply E, Hz, H.
      * intros v Hv. injection Hv as <-. split; [reflexivity|lia].
Qed.

(** C7 (counterexample). With weekday-only transactions, Saturday is
    listed with no count, not with the count 0. *)
Lemma daily_summary_saturday_not_zero : ~ daily_zero_claim.
Proof.
  intros H.
  specialize (H (orders_full january_weekdays) "Saturday").
  assert (Hin : In "Saturday" weekday_names) by (simpl; tauto).
  specialize (H Hin).
  assert (Hall : Forall (fun r => ts_day_name (order_purchase_timestamp r) <> "Saturday")
                        (orders_full january_weekdays)).
  { apply Forall_string_neq. vm_compute. reflexivity. }
  specialize (H Hall). vm_compute in H.
  repeat (destruct H as [H|H]; [discriminate|]). exact H.
Qed.

(** ** C6: an empty window *)

(** C6 (code at the failing input). Whenever the window is valid and keeps
    no row, the run stops with [NameError] on [rfm]: the RFM table is only
    built under [if not filtered_orders.empty], but the Key Insights block
    of tab 1 reads it unconditionally.  This is so for the specification's
    scenario (orders in January 2017, window February 2017). *)
Theorem empty_window_name_error :
  forall d start_date end_date,
    start_date <= end_date ->
    filtered_orders (orders_full d) start_date end_date = [] ->
    run_script d start_date end_date = Err (NameError "rfm").
Proof.
  intros d s e Hse Hnil. unfold run_script.
  replace (e <? s) with false by (symmetry; apply Z.ltb_ge; lia).
  rewrite Hnil. reflexivity.
Qed.

Lemma empty_window_name_error_witness :
  run_script january_weekdays (date 2017 2 1) (date 2017 2 28) = Err (NameError "rfm").
Proof.
  apply empty_window_name_error.
  - apply Z.leb_le. vm_compute. reflexivity.
  - vm_compute. reflexivity.
Defined.

(** ** C10: a window with weekday transactions only *)

(** C10. There is a valid, non-empty window, all of whose transactions fall
    on weekdays, for which the RFM tab completes but the temporal Key
    Insights fail with [IndexError] at [.values[0]] of the (absent)
    weekend row, so the whole run ends with that error. *)
Theorem weekday_only_window_index_error :
  exists d start_date end_date,
    min_date_allowed <= start_date <= end_date /\ end_date <= max_date_allowed /\
    filtered_orders (orders_full d) start_date end_date <> [] /\
    Forall (fun r => day_type (order_purchase_timestamp r) = "Weekday")
           (filtered_orders (orders_full d) start_date end_date) /\
    (exists t, rfm_table (filtered_orders (orders_full d) start_date end_date) (order_items d) = Ok t
               /\ exists f, tab1_insights (Some t) = Ok f) /\
    values0_of (day_type_summary (filtered_orders (orders_full d) start_date end_date)) "Weekend"
      = Err IndexError /\
    tab2_insights (filtered_orders (orders_full d) start_date end_date) = Err IndexError /\
    run_script d start_date end_date = Err IndexError.
Proof.
  exists january_weekdays, min_date_allowed, max_date_allowed.
  split; [split; apply Z.leb_le; vm_compute; reflexivity|].
  split; [apply Z.leb_le; vm_compute; reflexivity|].
  split; [vm_compute; discriminate|].
  split; [apply Forall_string_eq; vm_compute; reflexivity|].
  split; [eexists; split; [vm_compute; reflexivity|eexists; vm_compute; reflexivity]|].
  split; [vm_compute; reflexivity|].
  split; vm_compute; reflexivity.
Qed.

(** ** C3: the monetary value of a customer *)

(** C3 (code at the failing input).  Customer u1 has one order with two
    items priced 10 and 20, customer u2 one item priced 5.  The rows of
    u1 in the window carry 10 + 20 = 30 of revenue, but the RFM table
    gives u1 a monetary value of 60: line 100 joins the items a second
    time, so each of the two rows of the order is repeated per item. *)
Theorem rfm_monetary_two_item_order :
  match run_script two_item_order min_date_allowed max_date_allowed with
  | Ok out =>
      option_map (map (fun r => (rfm_customer_unique_id r, monetary r))) (out_rfm out)
        = Some [("u1", 60); ("u2", 5)] /\
      sumZ (map revenue0 (filter (key_is customer_unique_id "u1") (out_filtered out))) = 30 /\
      length (filter (key_is customer_unique_id "u1") (out_filtered out)) = 2%nat /\
      length (filter (fun p => key_is customer_unique_id "u1" (fst p))
                (remerge_items (out_filtered out) (order_items two_item_order))) = 4%nat
  | Err _ => False
  end.
Proof. vm_compute. repeat split; reflexivity. Qed.

(** ** C5: the window and the category summary *)

Lemma run_script_category_summary d s e out :
  run_script d s e = Ok out ->
  out_category_summary out = tab3_category_summary (orders_full d).
Proof.
  unfold run_script. destruct (e <? s); [discriminate|].
  unfold bind.
  repeat match goal with
         | |- context [match ?m with Ok _ => _ | Err _ => _ end] =>
             destruct m; [|discriminate]
         end.
  intros H; injection H as <-. reflexivity.
Qed.

(** C5 (code at the failing input).  Whatever the window, a run that
    completes shows the category summary of all of [orders_full]; with
    orders in January and February 2017 and the window February 2017, it
    shows the January furniture revenue (300) that the filtered rows do not
    contain, so it differs from the summary of the filtered rows. *)
Theorem category_summary_ignores_window :
  (forall d s1 e1 s2 e2 out1 out2,
      run_script d s1 e1 = Ok out1 -> run_script d s2 e2 = Ok out2 ->
      out_category_summary out1 = out_category_summary out2) /\
  match run_script january_february (date 2017 2 1) (date 2017 2 28) with
  | Ok out =>
      out_category_summary out = Some (category_summary_of (orders_full january_february)) /\
      out_category_summary out <> Some (category_summary_of (out_filtered out)) /\
      option_map (map (fun c => (cat_name c, cat_revenue c))) (out_category_summary out)
        = Some [("beleza", 100); ("moveis", 300)] /\
      map (fun c => (cat_name c, cat_revenue c)) (category_summary_of (out_filtered out))
        = [("beleza", 100)]
  | Err _ => False
  end.
Proof.
  split.
  - intros d s1 e1 s2 e2 o1 o2 H1 H2.
    rewrite (run_script_category_summary _ _ _ _ H1), (run_script_category_summary _ _ _ _ H2).
    reflexivity.
  - vm_compute. split; [reflexivity|]. split; [discriminate|]. split; reflexivity.
Qed.

Lemma category_summary_ignores_window_witness :
  exists out1 out2,
    run_script january_february (date 2017 2 1) (date 2017 2 28) = Ok out1 /\
    run_script january_february min_date_allowed max_date_allowed = Ok out2 /\
    out_category_summary out1 = out_category_summary out2.
Proof.
  destruct (run_script january_february (date 2017 2 1) (date 2017 2 28)) as [o1|] eqn:E1;
    [|vm_compute in E1; discriminate].
  destruct (run_script january_february min_date_allowed max_date_allowed) as [o2|] eqn:E2;
    [|vm_compute in E2; discriminate].
  exists o1, o2. split; [reflexivity|]. split; [reflexivity|].
  destruct category_summary_ignores_window as [H _].
  exact (H _ _ _ _ _ _ _ E1 E2).
Defined.

(** ** C4: the category summary partitions revenue *)

(** C4 (counterexample).  With a product that has no category (sold for
    50) and one in "beleza" (sold for 30), over the whole date range the
    category summary adds up to 30 while the rows carry 80: the null
    category is dropped by [groupby], not kept as a bucket. *)
Lemma category_summary_drops_null_category : ~ category_partition_claim.
Proof.
  intros H.
  destruct (run_script uncategorised_product min_date_allowed max_date_allowed) as [out|] eqn:E;
    [|vm_compute in E; discriminate].
  assert (Hcs : out_category_summary out = Some (category_summary_of (orders_full uncategorised_product)))
    by (rewrite (run_script_category_summary _ _ _ _ E); reflexivity).
  specialize (H _ _ _ _ _ E Hcs).
  vm_compute in E. injection E as <-. vm_compute in H. discriminate.
Qed.

(** C4 (as amended).  The revenues of the category summary add up to the
    revenue (NaN counted as 0) of the aggregated rows whose category is not
    null: every such row is counted once, in its own category, and rows
    with a null category are dropped by [groupby] rather than kept in a
    "missing category" bucket. *)
Theorem category_summary_revenue_total (rows : list Row) :
  sumZ (map cat_revenue (category_summary_of rows)) =
  sumZ (map revenue0 (filter (has_key product_category_name) rows)).
Proof.
  unfold category_summary_of. rewrite map_map. simpl.
  apply sum_groups; [apply group_keys_NoDup|].
  intros r k Hr Hk. eapply group_keys_In; eauto.
Qed.

(** ** Ranks with [method='first'] *)

Lemma countb_app {A} (p : A -> bool) (l1 l2 : list A) :
  countb p (l1 ++ l2) = (countb p l1 + countb p l2)%nat.
Proof. unfold countb. rewrite filter_app, length_app. reflexivity. Qed.

Lemma countb_le_length {A} (p : A -> bool) (l : list A) : (countb p l <= length l)%nat.
Proof. unfold countb. apply filter_length_le. Qed.

Lemma countb_disjoint {A} (p q : A -> bool) (l : list A) :
  (forall x, p x = true -> q x = false) ->
  (countb p l + countb q l <= length l)%nat.
Proof.
  intros H. unfold countb. induction l as [|a l IH]; simpl; [lia|].
  destruct (p a) eqn:Hp; [rewrite (H a Hp)|destruct (q a)]; simpl; lia.
Qed.

Lemma countb_mono {A} (p q : A -> bool) (l : list A) :
  (forall x, p x = true -> q x = true) -> (countb p l <= countb q l)%nat.
Proof.
  intros H. unfold countb. induction l as [|a l IH]; simpl; [lia|].
  destruct (p a) eqn:Hp; [rewrite (H a Hp)|destruct (q a)]; simpl; lia.
Qed.

Lemma countb_ext {A} (p q : A -> bool) (l : list A) :
  (forall x, p x = q x) -> countb p l = countb q l.
Proof. intros H. unfold countb. rewrite (filter_ext p q H). reflexivity. Qed.

Lemma length_rank_first (xs : list Z) : length (rank_first xs) = length xs.
Proof. unfold rank_first. rewrite length_map, length_seq. reflexivity. Qed.

Lemma nth_rank_first (xs : list Z) (i : nat) :
  (i < length xs)%nat ->
  nth i (rank_first xs) 0 =
  1 + Z.of_nat (countb (fun y => y <? nth i xs 0) xs)
    + Z.of_nat (countb (fun y => y =? nth i xs 0) (firstn i xs)).
Proof.
  intros Hi. unfold rank_first.
  set (f := fun i => let x := nth i xs 0 in
                     1 + Z.of_nat (countb (fun y => y <? x) xs)
                       + Z.of_nat (countb (fun y => y =? x) (firstn i xs))).
  rewrite (nth_indep _ 0 (f 0%nat)) by (rewrite length_map, length_seq; exact Hi).
  rewrite map_nth, seq_nth by exact Hi. reflexivity.
Qed.

Lemma split_at_nth (xs : list Z) (i : nat) :
  (i < length xs)%nat -> xs = firstn i xs ++ nth i xs 0 :: skipn (S i) xs.
Proof.
  revert i. induction xs as [|a xs IH]; intros [|i] Hi; simpl in *; try lia.
  - reflexivity.
  - f_equal. apply IH. lia.
Qed.

Lemma firstn_S_nth (xs : list Z) (i : nat) :
  (i < length xs)%nat -> firstn (S i) xs = firstn i xs ++ [nth i xs 0].
Proof.
  revert i. induction xs as [|a xs IH]; intros [|i] Hi; simpl in *; try lia.
  - reflexivity.
  - f_equal. apply IH. lia.
Qed.

Lemma countb_firstn_mono {A} (p : A -> bool) (l : list A) (i j : nat) :
  (i <= j)%nat -> (countb p (firstn i l) <= countb p (firstn j l))%nat.
Proof.
  revert i j. unfold countb. induction l as [|a l IH]; intros [|i] [|j] Hij; simpl; try lia.
  destruct (p a); simpl; [apply le_n_S|]; apply IH; lia.
Qed.

(** The number of copies of the value at position [i] that come before it
    is less than its number of copies. *)
Lemma countb_eq_before (xs : list Z) (i : nat) :
  (i < length xs)%nat ->
  (countb (fun y => Z.eqb y (nth i xs 0%Z)) (firstn i xs) + 1
   <= countb (fun y => Z.eqb y (nth i xs 0%Z)) xs)%nat.
Proof.
  intros Hi. rewrite (split_at_nth xs i Hi) at 2.
  rewrite countb_app. simpl. unfold countb at 3. simpl. rewrite Z.eqb_refl. simpl. lia.
Qed.

Lemma rank_first_range (xs : list Z) (i : nat) :
  (i < length xs)%nat -> 1 <= nth i (rank_first xs) 0 <= Z.of_nat (length xs).
Proof.
  intros Hi. rewrite nth_rank_first by exact Hi.
  set (x := nth i xs 0).
  pose proof (split_at_nth xs i Hi) as Hs. fold x in Hs.
  set (pre := firstn i xs) in *. set (post := skipn (S i) xs) in *.
  assert (Hlt : countb (fun y => y <? x) xs = (countb (fun y => Z.ltb y x) pre
                                                 + countb (fun y => Z.ltb y x) post)%nat).
  { rewrite Hs at 1. rewrite countb_app. unfold countb at 2. simpl.
    rewrite Z.ltb_irrefl. reflexivity. }
  assert (Hd : (countb (fun y => Z.ltb y x) pre + countb (fun y => Z.eqb y x) pre <= length pre)%nat).
  { apply countb_disjoint. intros y Hy. apply Z.ltb_lt in Hy. apply Z.eqb_neq. lia. }
  pose proof (countb_le_length (fun y => y <? x) post).
  assert (Hlen : length xs = (length pre + S (length post))%nat)
    by (rewrite Hs at 1; rewrite length_app; reflexivity).
  lia.
Qed.

(** A smaller value has a smaller rank. *)
Lemma rank_first_lt_value (xs : list Z) (i j : nat) :
  (i < length xs)%nat -> (j < length xs)%nat -> nth i xs 0 < nth j xs 0 ->
  nth i (rank_first xs) 0 < nth j (rank_first xs) 0.
Proof.
  intros Hi Hj Hv. rewrite !nth_rank_first by assumption.
  set (x := nth i xs 0) in *. set (y := nth j xs 0) in *.
  pose proof (countb_eq_before xs i Hi) as Hb. fold x in Hb.
  assert (Hle : (countb (fun z => Z.ltb z x) xs + countb (fun z => Z.eqb z x) xs
                 <= countb (fun z => Z.ltb z y) xs)%nat).
  { unfold countb. clearbody x y. clear -Hv. induction xs as [|a xs IH]; simpl; [lia|].
    destruct (Z.ltb_spec a x), (Z.eqb_spec a x), (Z.ltb_spec a y); simpl; lia. }
  lia.
Qed.

(** Equal values are ranked in the order they occur. *)
Lemma rank_first_tie (xs : list Z) (i j : nat) :
  (i < j)%nat -> (j < length xs)%nat -> nth i xs 0 = nth j xs 0 ->
  nth i (rank_first xs) 0 < nth j (rank_first xs) 0.
Proof.
  intros Hij Hj Hv. rewrite !nth_rank_first by lia.
  rewrite <- Hv.
  set (x := nth i xs 0).
  pose proof (countb_firstn_mono (fun y => y =? x) xs (S i) j Hij).
  rewrite firstn_S_nth, countb_app in H by lia.
  unfold countb at 2 in H. simpl in H. fold x in H. rewrite Z.eqb_refl in H. simpl in H.
  lia.
Qed.

Lemma in_zseq (a x : Z) (n : nat) : In x (zseq a n) <-> a <= x < a + Z.of_nat n.
Proof.
  revert a. induction n as [|n IH]; intros a; simpl; [lia|].
  rewrite IH. lia.
Qed.

Lemma length_zseq (a : Z) (n : nat) : length (zseq a n) = n.
Proof. revert a; induction n; simpl; auto. Qed.

Lemma rank_first_NoDup (xs : list Z) : NoDup (rank_first xs).
Proof.
  apply (NoDup_nth _ 0). rewrite length_rank_first. intros i j Hi Hj Heq.
  destruct (Nat.lt_trichotomy i j) as [Hlt|[Heq'|Hgt]]; [|exact Heq'|].
  - exfalso. destruct (Z.lt_trichotomy (nth i xs 0) (nth j xs 0)) as [H|[H|H]].
    + pose proof (rank_first_lt_value xs i j Hi Hj H). lia.
    + pose proof (rank_first_tie xs i j Hlt Hj H). lia.
    + pose proof (rank_first_lt_value xs j i Hj Hi H). lia.
  - exfalso. destruct (Z.lt_trichotomy (nth i xs 0) (nth j xs 0)) as [H|[H|H]].
    + pose proof (rank_first_lt_value xs i j Hi Hj H). lia.
    + pose proof (rank_first_tie xs j i Hgt Hi (eq_sym H)). lia.
    + pose proof (rank_first_lt_value xs j i Hj Hi H). lia.
Qed.

(** The ranks are 1, ..., N in some order. *)
Lemma rank_first_perm (xs : list Z) : Permutation (rank_first xs) (zseq 1 (length xs)).
Proof.
  apply NoDup_Permutation_bis.
  - apply rank_first_NoDup.
  - rewrite length_zseq, length_rank_first. lia.
  - intros r Hr. apply in_zseq.
    apply (In_nth _ _ 0) in Hr as [i [Hi <-]]. rewrite length_rank_first in Hi.
    pose proof (rank_first_range xs i Hi). lia.
Qed.

(** ** The [qcut] edges of the ranks *)

Lemma insert_comm (x y : Z) (l : list Z) :
  insert Z.leb x (insert Z.leb y l) = insert Z.leb y (insert Z.leb x l).
Proof.
  induction l as [|z l IH]; simpl.
  - destruct (Z.leb_spec x y), (Z.leb_spec y x); try reflexivity;
      try (assert (x = y) by lia; subst; reflexivity); lia.
  - destruct (Z.leb_spec y z), (Z.leb_spec x z); simpl;
    repeat match goal with
           | |- context [Z.leb ?a ?b] => destruct (Z.leb_spec a b)
           end;
    try reflexivity; try lia;
    try (assert (x = y) by lia; subst; reflexivity);
    try (f_equal; exact IH).
Qed.

Lemma isort_perm_eq (l l' : list Z) : Permutation l l' -> isort Z.leb l = isort Z.leb l'.
Proof.
  induction 1; simpl.
  - reflexivity.
  - rewrite IHPermutation. reflexivity.
  - apply insert_comm.
  - congruence.
Qed.

Lemma isort_zseq (a : Z) (n : nat) : isort Z.leb (zseq a n) = zseq a n.
Proof.
  revert a. induction n as [|n IH]; intros a; simpl; [reflexivity|].
  rewrite IH. destruct n as [|n]; simpl; [reflexivity|].
  replace (a <=? a + 1) with true by (symmetry; apply Z.leb_le; lia). reflexivity.
Qed.

Lemma nth_zseq (a : Z) (n i : nat) : (i < n)%nat -> nth i (zseq a n) 0 = a + Z.of_nat i.
Proof.
  revert a i. induction n as [|n IH]; intros a [|i] Hi; simpl; try lia.
  rewrite IH by lia. lia.
Qed.

(** The quantile of 1, ..., N at k/4, times 4, is [4 + k (N - 1)]. *)
Lemma quantile4_zseq (N : nat) (k : Z) :
  (1 <= N)%nat -> 0 <= k <= 4 ->
  quantile4 (zseq 1 N) k = Some (4 + k * (Z.of_nat N - 1)).
Proof.
  intros HN Hk. destruct N as [|N']; [lia|].
  set (N := S N'). unfold quantile4.
  change (zseq 1 (S N')) with (zseq 1 N).
  replace (zseq 1 N) with (1 :: zseq 2 N') at 1 by reflexivity.
  cbv zeta. rewrite length_zseq.
  set (h := (Z.of_nat N - 1) * k).
  assert (Hh : 0 <= h <= 4 * (Z.of_nat N - 1)) by (unfold h; nia).
  assert (Hlo : 0 <= h / 4 <= Z.of_nat N - 1) by (split; [apply Z.div_pos|apply Z.div_le_upper_bound]; lia).
  rewrite !nth_zseq by (rewrite ?Z2Nat.id; lia).
  rewrite !Z2Nat.id by lia.
  f_equal.
  assert (Hdef : h = (Z.of_nat N - 1) * k) by reflexivity. clearbody h.
  pose proof (Z.div_mod h 4 ltac:(lia)). pose proof (Z.mod_pos_bound h 4 ltac:(lia)).
  set (q := h / 4) in *. set (m := h mod 4) in *. clearbody q m.
  destruct (Z.eq_dec q (Z.of_nat N - 1)) as [Hq|Hq].
  - assert (m = 0) by lia. subst m. lia.
  - rewrite Z.min_l by lia.
    replace (1 + (q + 1) - (1 + q)) with 1 by lia. lia.
Qed.

Definition rank_edges (N : Z) : list Z :=
  [4; 4 + (N - 1); 4 + 2 * (N - 1); 4 + 3 * (N - 1); 4 + 4 * (N - 1)].

Lemma qcut_edges_ranks (xs : list Z) :
  (1 <= length xs)%nat ->
  qcut_edges (rank_first xs) = Some (rank_edges (Z.of_nat (length xs))).
Proof.
  intros H. unfold qcut_edges.
  rewrite (isort_perm_eq _ _ (rank_first_perm xs)), isort_zseq.
  cbn [map].
  rewrite !quantile4_zseq by lia.
  cbn [all_some option_map]. unfold rank_edges.
  rewrite Z.mul_0_l, Z.add_0_r, Z.mul_1_l. reflexivity.
Qed.

(** The label of rank [r] among N ranks, as the edges give it. *)
Definition rank_label (N r : Z) : Z :=
  if 4 * r <=? 4 + (N - 1) then 0
  else if 4 * r <=? 4 + 2 * (N - 1) then 1
  else if 4 * r <=? 4 + 3 * (N - 1) then 2
  else 3.

Lemma cut_label_rank (N r : Z) :
  2 <= N -> 1 <= r <= N -> cut_label (rank_edges N) r = Some (rank_label N r).
Proof.
  intros HN Hr. unfold cut_label, searchsorted_left, countb, rank_label.
  replace (length (rank_edges N)) with 5%nat by reflexivity.
  replace (nth 0 (rank_edges N) 0) with 4 by reflexivity.
  unfold rank_edges. cbn [filter].
  destruct (Z.eqb_spec (4 * r) 4).
  all: repeat match goal with
              | |- context [Z.ltb ?a ?b] => destruct (Z.ltb_spec a b)
              end.
  all: repeat match goal with
              | |- context [Z.leb ?a ?b] => destruct (Z.leb_spec a b)
              end.
  all: cbn [length]; simpl; try reflexivity; lia.
Qed.

Lemma rank_edges_distinct (N : Z) :
  2 <= N -> length (nodup Z.eq_dec (rank_edges N)) = length (rank_edges N).
Proof.
  intros HN. rewrite nodup_fixed_point; [reflexivity|].
  unfold rank_edges.
  repeat (apply NoDup_cons; [cbn [In]; intros H; repeat destruct H as [H|H]; lia|]).
  apply NoDup_nil.
Qed.

(** With at least two values, the scores are [rank_label + 1] of the ranks. *)
Lemma rfm_score_ranks (xs : list Z) :
  (2 <= length xs)%nat ->
  rfm_score xs = Ok (map (fun r => Some (rank_label (Z.of_nat (length xs)) r + 1)) (rank_first xs)).
Proof.
  intros H. unfold rfm_score, qcut4.
  rewrite qcut_edges_ranks by lia.
  rewrite rank_edges_distinct by lia.
  rewrite Nat.ltb_irrefl. simpl. f_equal.
  rewrite map_map. apply map_ext_in. intros r Hr.
  apply (Permutation_in _ (rank_first_perm xs)), in_zseq in Hr.
  rewrite cut_label_rank by lia. reflexivity.
Qed.

Lemma countb_perm {A} (p : A -> bool) (l l' : list A) :
  Permutation l l' -> countb p l = countb p l'.
Proof.
  unfold countb. induction 1 as [|x l l' _ IH|x y l|l l' l'' _ IH1 _ IH2]; simpl.
  - reflexivity.
  - destruct (p x); simpl; lia.
  - destruct (p x), (p y); simpl; reflexivity.
  - lia.
Qed.

Lemma countb_map {A B} (p : B -> bool) (f : A -> B) (l : list A) :
  countb p (map f l) = countb (fun x => p (f x)) l.
Proof.
  unfold countb. induction l as [|a l IH]; simpl; [reflexivity|].
  destruct (p (f a)); simpl; lia.
Qed.

Lemma countb_split {A} (p q : A -> bool) (l : list A) :
  countb p l = (countb (fun x => p x && q x) l + countb (fun x => p x && negb (q x)) l)%nat.
Proof.
  unfold countb. induction l as [|a l IH]; simpl; [reflexivity|].
  destruct (p a), (q a); simpl; lia.
Qed.

Lemma countb_negb {A} (p : A -> bool) (l : list A) :
  (countb (fun x => negb (p x)) l + countb p l)%nat = length l.
Proof.
  unfold countb. induction l as [|a l IH]; simpl; [reflexivity|].
  destruct (p a); simpl; lia.
Qed.

(** How many of the ranks [a .. a+n-1] lie under a (scaled) edge [c]. *)
Lemma countb_le_zseq (c a : Z) (n : nat) :
  Z.of_nat (countb (fun r => 4 * r <=? c) (zseq a n)) =
  Z.max 0 (Z.min (Z.of_nat n) (c / 4 - a + 1)).
Proof.
  revert a. induction n as [|n IH]; intros a; unfold countb in *; cbn [zseq filter].
  - cbn [length]. lia.
  - pose proof (Z.div_mod c 4 ltac:(lia)). pose proof (Z.mod_pos_bound c 4 ltac:(lia)).
    destruct (Z.leb_spec (4 * a) c); cbn [length]; rewrite ?Nat2Z.inj_succ, IH; lia.
Qed.

Lemma countb_band (c1 c2 : Z) (l : list Z) :
  c1 <= c2 ->
  Z.of_nat (countb (fun r => (4 * r <=? c2) && negb (4 * r <=? c1)) l) =
  Z.of_nat (countb (fun r => 4 * r <=? c2) l) - Z.of_nat (countb (fun r => 4 * r <=? c1) l).
Proof.
  intros H.
  rewrite (countb_split (fun r => 4 * r <=? c2) (fun r => 4 * r <=? c1) l).
  rewrite (countb_ext (fun x => (4 * x <=? c2) && (4 * x <=? c1)) (fun r => 4 * r <=? c1)).
  - lia.
  - intros x. destruct (Z.leb_spec (4 * x) c2), (Z.leb_spec (4 * x) c1);
      simpl; try reflexivity; exfalso; lia.
Qed.

Ltac label_cases :=
  intros ?r; unfold rank_label;
  repeat match goal with
         | |- context [Z.leb ?a ?b] => destruct (Z.leb_spec a b)
         end;
  cbn; try reflexivity; exfalso; lia.

(** The sizes of the four bins over the ranks [1 .. N]. *)
Lemma rank_label_counts (n : nat) :
  (1 <= n)%nat ->
  let N := Z.of_nat n in
  map (fun k => Z.of_nat (countb (fun r => k =? rank_label N r + 1) (zseq 1 n))) [1; 2; 3; 4] =
  [(N + 3) / 4; (2 * N + 2) / 4 - (N + 3) / 4;
   (3 * N + 1) / 4 - (2 * N + 2) / 4; N - (3 * N + 1) / 4].
Proof.
  intros Hn N. cbn [map].
  rewrite (countb_ext (fun r => 1 =? rank_label N r + 1) (fun r => 4 * r <=? 4 + (N - 1)))
    by label_cases.
  rewrite (countb_ext (fun r => 2 =? rank_label N r + 1)
             (fun r => (4 * r <=? 4 + 2 * (N - 1)) && negb (4 * r <=? 4 + (N - 1))))
    by label_cases.
  rewrite (countb_ext (fun r => 3 =? rank_label N r + 1)
             (fun r => (4 * r <=? 4 + 3 * (N - 1)) && negb (4 * r <=? 4 + 2 * (N - 1))))
    by label_cases.
  rewrite (countb_ext (fun r => 4 =? rank_label N r + 1)
             (fun r => negb (4 * r <=? 4 + 3 * (N - 1))))
    by label_cases.
  rewrite !countb_band by lia.
  pose proof (countb_negb (fun r => 4 * r <=? 4 + 3 * (N - 1)) (zseq 1 n)) as Hneg.
  rewrite length_zseq in Hneg.
  assert (Hc : Z.of_nat (countb (fun r => negb (4 * r <=? 4 + 3 * (N - 1))) (zseq 1 n)) =
               N - Z.of_nat (countb (fun r => 4 * r <=? 4 + 3 * (N - 1)) (zseq 1 n))) by lia.
  rewrite Hc, !countb_le_zseq. fold N.
  assert (1 <= N) by lia. clearbody N.
  repeat match goal with |- _ :: _ = _ :: _ => f_equal end.
  all: Z.div_mod_to_equations; lia.
Qed.

Lemma rank_label_range (N r : Z) : 0 <= rank_label N r <= 3.
Proof.
  unfold rank_label.
  repeat match goal with
         | |- context [Z.leb ?a ?b] => destruct (Z.leb_spec a b)
         end; lia.
Qed.

Lemma rank_label_mono (N r1 r2 : Z) : r1 <= r2 -> rank_label N r1 <= rank_label N r2.
Proof.
  intros H. unfold rank_label.
  repeat match goal with
         | |- context [Z.leb ?a ?b] => destruct (Z.leb_spec a b)
         end; lia.
Qed.

Lemma quartile_sizes (N : Z) :
  0 <= N ->
  Forall (fun c => c = N / 4 \/ c = (N + 3) / 4)
    [(N + 3) / 4; (2 * N + 2) / 4 - (N + 3) / 4;
     (3 * N + 1) / 4 - (2 * N + 2) / 4; N - (3 * N + 1) / 4].
Proof.
  intros HN. repeat apply Forall_cons; try apply Forall_nil;
    Z.div_mod_to_equations; lia.
Qed.

(** ** C2: quartile bins by rank *)

(** C2. For every score column of N >= 4 customers, [rfm_score] assigns
    every customer a score in 1..4; scores are monotone in the value, and
    equal values are ordered by first occurrence (the earlier one never
    gets the higher score); the four bins hold (N+3)/4,
    (2N+2)/4 - (N+3)/4, (3N+1)/4 - (2N+2)/4 and N - (3N+1)/4 customers
    (the linear-interpolation quantile edges of the ranks), and each of
    these is floor(N/4) or ceil(N/4). *)
Theorem rfm_score_quartile_bins (xs : list Z) :
  (4 <= length xs)%nat ->
  let N := Z.of_nat (length xs) in
  exists ss,
    rfm_score xs = Ok (map Some ss) /\
    Forall (fun s => 1 <= s <= 4) ss /\
    (forall i j, (i < length xs)%nat -> (j < length xs)%nat ->
       nth i xs 0 < nth j xs 0 \/ (nth i xs 0 = nth j xs 0 /\ (i < j)%nat) ->
       nth i ss 0 <= nth j ss 0) /\
    map (fun k => Z.of_nat (score_count k ss)) [1; 2; 3; 4] =
      [(N + 3) / 4; (2 * N + 2) / 4 - (N + 3) / 4;
       (3 * N + 1) / 4 - (2 * N + 2) / 4; N - (3 * N + 1) / 4] /\
    Forall (fun k => Z.of_nat (score_count k ss) = N / 4 \/
                     Z.of_nat (score_count k ss) = (N + 3) / 4) [1; 2; 3; 4].
Proof.
  intros H N.
  set (f := fun r => rank_label N r + 1).
  exists (map f (rank_first xs)).
  assert (Hcount : map (fun k => Z.of_nat (score_count k (map f (rank_first xs)))) [1; 2; 3; 4] =
      [(N + 3) / 4; (2 * N + 2) / 4 - (N + 3) / 4;
       (3 * N + 1) / 4 - (2 * N + 2) / 4; N - (3 * N + 1) / 4]).
  { unfold score_count.
    transitivity (map (fun k => Z.of_nat (countb (fun r => k =? rank_label N r + 1)
                                            (zseq 1 (length xs)))) [1; 2; 3; 4]).
    - apply map_ext. intros k.
      rewrite countb_map, (countb_perm _ _ _ (rank_first_perm xs)). reflexivity.
    - exact (rank_label_counts (length xs) ltac:(lia)). }
  assert (HN : 4 <= N) by (unfold N; lia).
  split; [|split; [|split; [|split]]].
  - rewrite rfm_score_ranks by lia. rewrite map_map. reflexivity.
  - apply Forall_map, Forall_forall. intros r _. unfold f.
    pose proof (rank_label_range N r). lia.
  - intros i j Hi Hj Hv.
    rewrite !(nth_indep _ 0 (f 0)) by (rewrite length_map, length_rank_first; lia).
    rewrite !map_nth. unfold f.
    assert (nth i (rank_first xs) 0 <= nth j (rank_first xs) 0).
    { destruct Hv as [Hv|[Hv Hij]].
      - pose proof (rank_first_lt_value xs i j Hi Hj Hv). lia.
      - pose proof (rank_first_tie xs i j Hij Hj Hv). lia. }
    pose proof (rank_label_mono N _ _ H0). lia.
  - exact Hcount.
  - apply (proj1 (Forall_map (fun k => Z.of_nat (score_count k (map f (rank_first xs))))
                               (fun c => c = N / 4 \/ c = (N + 3) / 4) _)).
    rewrite Hcount. apply quartile_sizes. lia.
Qed.

(** C2 counterexample. Six customers with distinct values get the scores
    1,1,2,3,4,4: the bins hold 2,1,1,2 customers, so the extra customers
    are not all in the earliest bins (bin 2 holds 1, not ceil(6/4) = 2). *)
Theorem six_customers_not_earliest_bins : ~ earliest_bins_claim.
Proof.
  unfold earliest_bins_claim. intros H.
  assert (Hs : rfm_score six_values = Ok (map Some [1; 1; 2; 3; 4; 4]))
    by (vm_compute; reflexivity).
  specialize (H six_values [1; 1; 2; 3; 4; 4] ltac:(cbn; lia) Hs 2 ltac:(lia)).
  vm_compute in H. discriminate H.
Qed.

Lemma rfm_score_quartile_bins_witness :
  (4 <= length six_values)%nat /\
  let N := Z.of_nat (length six_values) in
  exists ss,
    rfm_score six_values = Ok (map Some ss) /\
    Forall (fun s => 1 <= s <= 4) ss /\
    (forall i j, (i < length six_values)%nat -> (j < length six_values)%nat ->
       nth i six_values 0 < nth j six_values 0 \/
       (nth i six_values 0 = nth j six_values 0 /\ (i < j)%nat) ->
       nth i ss 0 <= nth j ss 0) /\
    map (fun k => Z.of_nat (score_count k ss)) [1; 2; 3; 4] =
      [(N + 3) / 4; (2 * N + 2) / 4 - (N + 3) / 4;
       (3 * N + 1) / 4 - (2 * N + 2) / 4; N - (3 * N + 1) / 4] /\
    Forall (fun k => Z.of_nat (score_count k ss) = N / 4 \/
                     Z.of_nat (score_count k ss) = (N + 3) / 4) [1; 2; 3; 4].
Proof.
  split; [unfold six_values; cbn [length]; lia|].
  apply (rfm_score_quartile_bins six_values). unfold six_values; cbn [length]; lia.
Defined.

(** ** C9: fewer than four customers *)

Lemma rank_first_single (x : Z) : rank_first [x] = [1].
Proof.
  unfold rank_first, countb. cbn [seq map nth firstn length].
  replace (filter (fun y => y <? x) [x]) with (@nil Z)
    by (cbn [filter]; rewrite Z.ltb_irrefl; reflexivity).
  reflexivity.
Qed.

(** C9. The quartile binning has no fallback for small inputs: with a
    single customer the five quantile edges of the one rank coincide and
    [pd.qcut] raises [ValueError] (duplicate edges), so a valid window
    holding the transactions of one customer makes the script fail; the
    January 2017 window of [january_february] holds order o1 only. *)
Theorem one_customer_window_value_error :
  (forall x, rfm_score [x] = Err ValueError) /\
  run_script january_february (date 2017 1 1) (date 2017 1 31) = Err ValueError.
Proof.
  split.
  - intros x. unfold rfm_score. rewrite rank_first_single. vm_compute. reflexivity.
  - vm_compute. reflexivity.
Qed.

(* ================================================================== *)
(** * Further properties of the script *)

Lemma length_as_sumZ {A} (l : list A) : Z.of_nat (length l) = sumZ (map (fun _ => 1) l).
Proof. unfold sumZ. induction l as [|a l IH]; cbn [length map fold_right]; lia. Qed.


(** ** Tab 1: the segment summary *)


(** ** Tab 2: the day-of-week table *)

Lemma ts_day_name_In (ts : Z) : In (ts_day_name ts) weekday_names.
Proof.
  unfold ts_day_name. apply nth_In. unfold weekday_names. cbn [length].
  unfold ts_dayofweek. pose proof (Z.mod_pos_bound (ts_date ts + 3) 7). lia.
Qed.

Lemma weekday_names_NoDup : NoDup weekday_names.
Proof.
  unfold weekday_names.
  repeat (apply NoDup_cons; [cbn [In]; intuition discriminate|]).
  apply NoDup_nil.
Qed.

(** Every transaction of the window is counted under exactly one of the
    seven day names of [daily_summary] (lines 301-308 and 372-378): the
    counts, NaN read as 0, add up to the number of rows. *)
Theorem daily_summary_total (filtered : list Row) :
  sumZ (map (fun p => match snd p with Some c => c | None => 0 end) (daily_summary filtered)) =
  Z.of_nat (length filtered).
Proof.
  unfold daily_summary. rewrite map_map. cbn [snd].
  set (key := fun r : Row => Some (ts_day_name (order_purchase_timestamp r))).
  rewrite (map_ext _ (fun k => sumZ (map (fun _ => 1) (filter (key_is key k) filtered)))).
  2:{ intros nm. unfold countb.
      destruct (Nat.eqb_spec (length (filter (fun r => String.eqb (ts_day_name (order_purchase_timestamp r)) nm) filtered)) 0) as [E|E].
      - rewrite <- length_as_sumZ. unfold key, key_is. rewrite E. reflexivity.
      - rewrite <- length_as_sumZ. reflexivity. }
  rewrite sum_groups.
  - rewrite filter_all_true by (intros x _; reflexivity). symmetry. apply length_as_sumZ.
  - apply weekday_names_NoDup.
  - intros r k _ Hk. injection Hk as <-. apply ts_day_name_In.
Qed.

(** ** Tab 2: the hourly and monthly tables *)

Lemma insert_HdRel (a x : Z) (l : list Z) :
  a <= x -> HdRel Z.le a l -> HdRel Z.le a (insert Z.leb x l).
Proof.
  intros Hax Hhd. destruct l as [|b l]; cbn [insert].
  - constructor. exact Hax.
  - destruct (x <=? b); constructor; [exact Hax|]. inversion Hhd; assumption.
Qed.

Lemma insert_Sorted (x : Z) (l : list Z) : Sorted Z.le l -> Sorted Z.le (insert Z.leb x l).
Proof.
  induction 1 as [|a l Hs IH Hhd]; cbn [insert].
  - repeat constructor.
  - destruct (Z.leb_spec x a).
    + constructor; [constructor; assumption|constructor; exact H].
    + constructor; [exact IH|]. apply insert_HdRel; [lia|exact Hhd].
Qed.

Lemma isort_Sorted (l : list Z) : Sorted Z.le (isort Z.leb l).
Proof. induction l as [|a l IH]; cbn [isort]; [constructor|apply insert_Sorted, IH]. Qed.

Lemma Sorted_le_lt (l : list Z) : NoDup l -> Sorted Z.le l -> Sorted Z.lt l.
Proof.
  intros Hnd Hs. apply StronglySorted_Sorted.
  apply Sorted_StronglySorted in Hs; [|intros a b c; lia].
  induction Hs as [|a l Hs IH Hall]; constructor.
  - apply IH. inversion Hnd; assumption.
  - inversion Hnd as [|? ? Hnot]; subst.
    apply Forall_forall. intros y Hy.
    assert (a <= y) by (eapply Forall_forall in Hall; eauto).
    destruct (Z.eq_dec a y); [subst; contradiction|lia].
Qed.

Lemma sum_indicator_Z (h : Z) (K : list Z) :
  NoDup K -> In h K -> sumZ (map (fun k => if k =? h then 1 else 0) K) = 1.
Proof.
  unfold sumZ. induction 1 as [|k K Hnot Hnd IH]; cbn [In map fold_right]; [tauto|].
  intros [<-|Hin].
  - rewrite Z.eqb_refl.
    assert (Hz : fold_right Z.add 0 (map (fun k0 => if k0 =? k then 1 else 0) K) = 0).
    { clear IH Hnd. induction K as [|k' K IHK]; cbn [map fold_right]; [reflexivity|].
      destruct (Z.eqb_spec k' k); [subst; exfalso; apply Hnot; left; reflexivity|].
      rewrite IHK; [reflexivity|]. intros H; apply Hnot; right; exact H. }
    lia.
  - rewrite (IH Hin). destruct (Z.eqb_spec k h); [subst; contradiction|lia].
Qed.

Lemma sum_counts (K hs : list Z) :
  NoDup K -> incl hs K ->
  sumZ (map (fun k => Z.of_nat (countb (Z.eqb k) hs)) K) = Z.of_nat (length hs).
Proof.
  intros Hnd. induction hs as [|h hs IH]; intros Hincl.
  - unfold countb. cbn [filter length]. unfold sumZ.
    clear. induction K; cbn [map fold_right]; lia.
  - rewrite (map_ext _ (fun k => (if k =? h then 1 else 0) + Z.of_nat (countb (Z.eqb k) hs))).
    + rewrite sumZ_map_add, sum_indicator_Z, IH; cbn [length].
      * lia.
      * intros x Hx. apply Hincl. right. exact Hx.
      * exact Hnd.
      * apply Hincl. left. reflexivity.
    + intros k. unfold countb. cbn [filter].
      destruct (Z.eqb_spec k h); cbn [length]; lia.
Qed.

Lemma countb_pos {A} (p : A -> bool) (l : list A) (x : A) :
  In x l -> p x = true -> (1 <= countb p l)%nat.
Proof.
  unfold countb. induction l as [|a l IH]; cbn [In]; [tauto|].
  intros [<-|Hin] Hp; cbn [filter].
  - rewrite Hp. cbn [length]. lia.
  - destruct (p a); cbn [length]; [lia|]. exact (IH Hin Hp).
Qed.

(** [groupby(key).size()] over a column of integer keys: the keys that
    occur, increasing, each with the positive number of its rows. *)
Lemma size_groupby_shape (f : Row -> Z) (rows : list Row) :
  let s := map (fun h => (h, Z.of_nat (countb (Z.eqb h) (map f rows))))
               (isort Z.leb (nodup Z.eq_dec (map f rows))) in
  Sorted Z.lt (map fst s) /\
  Forall (fun p => (exists r, In r rows /\ f r = fst p) /\ 1 <= snd p) s /\
  sumZ (map snd s) = Z.of_nat (length rows).
Proof.
  intros s.
  assert (Hnd : NoDup (isort Z.leb (nodup Z.eq_dec (map f rows)))).
  { eapply Permutation_NoDup; [symmetry; apply isort_perm|apply NoDup_nodup]. }
  assert (Hin : forall h, In h (isort Z.leb (nodup Z.eq_dec (map f rows))) <-> In h (map f rows)).
  { intros h. split; intros H.
    - apply (Permutation_in _ (isort_perm _ _)), nodup_In in H. exact H.
    - apply (Permutation_in _ (Permutation_sym (isort_perm _ _))), nodup_In. exact H. }
  split; [|split].
  - unfold s. rewrite map_map. cbn [fst]. rewrite map_id.
    apply Sorted_le_lt; [exact Hnd|apply isort_Sorted].
  - unfold s. apply Forall_map, Forall_forall. intros h Hh. cbn [fst snd].
    apply Hin, in_map_iff in Hh. destruct Hh as [r [Hr Hrin]].
    split; [exists r; auto|].
    pose proof (countb_pos (Z.eqb h) (map f rows) (f r) (in_map f _ _ Hrin)
                  ltac:(subst; apply Z.eqb_refl)). lia.
  - unfold s. rewrite map_map. cbn [snd].
    rewrite sum_counts; [now rewrite length_map|exact Hnd|].
    intros h Hh. apply Hin. exact Hh.
Qed.

(** The hourly table of tab 2 (lines 333-339 and 389-394) lists the hours
    that occur, in increasing order, each between 0 and 23 and with at
    least one transaction; its counts add up to the number of rows. *)
Theorem hourly_summary_shape (filtered : list Row) :
  Sorted Z.lt (map fst (hourly_summary filtered)) /\
  Forall (fun p => 0 <= fst p <= 23 /\ 1 <= snd p) (hourly_summary filtered) /\
  sumZ (map snd (hourly_summary filtered)) = Z.of_nat (length filtered).
Proof.
  destruct (size_groupby_shape (fun r => ts_hour (order_purchase_timestamp r)) filtered)
    as [Hs [Hall Hsum]].
  unfold hourly_summary. cbv zeta.
  split; [exact Hs|split; [|exact Hsum]].
  eapply Forall_impl; [|exact Hall]. intros [h c] [[r [_ Hr]] Hc]. cbn [fst snd] in *.
  split; [|exact Hc]. subst h. unfold ts_hour, seconds_per_day.
  pose proof (Z.mod_pos_bound (order_purchase_timestamp r) 86400 ltac:(lia)).
  Z.div_mod_to_equations. lia.
Qed.

Lemma last_two_app {A} (l : list A) (a b : A) :
  last_two l = Some (a, b) -> exists pre, l = pre ++ [a; b].
Proof.
  induction l as [|x l IH]; [discriminate|].
  destruct l as [|y l]; [discriminate|].
  destruct l as [|z l].
  - cbn. intros H. injection H as <- <-. exists []. reflexivity.
  - intros H. change (last_two (y :: z :: l) = Some (a, b)) in H.
    destruct (IH H) as [pre Hpre]. exists (x :: pre). rewrite Hpre. reflexivity.
Qed.

Lemma last_two_sorted (pre : list Z) (a b x : Z) :
  StronglySorted Z.lt (pre ++ [a; b]) -> In x (pre ++ [a; b]) -> x <= b /\ ~ (a < x < b).
Proof.
  induction pre as [|c pre IH]; cbn [app].
  - intros Hs Hx. inversion Hs as [|? ? _ Hall]; subst.
    inversion Hall; subst. cbn [In] in Hx. lia.
  - intros Hs Hx. inversion Hs as [|? ? Hs' Hall]; subst.
    destruct Hx as [<-|Hx]; [|exact (IH Hs' Hx)].
    assert (Ha : c < a) by (eapply Forall_forall; [exact Hall|apply in_or_app; right; left; reflexivity]).
    assert (Hb : c < b) by (eapply Forall_forall; [exact Hall|apply in_or_app; right; right; left; reflexivity]).
    lia.
Qed.

(** The monthly table of tab 2 (lines 350-356 and 431-437) lists the
    months that occur, in increasing order, each with at least one
    transaction; its counts add up to the number of rows.  So the trend
    finding compares the two latest months that have transactions, and
    no transaction lies in a month between them. *)
Theorem monthly_summary_shape (filtered : list Row) :
  Sorted Z.lt (map fst (monthly_summary filtered)) /\
  Forall (fun p => (exists r, In r filtered /\ month_index (order_purchase_timestamp r) = fst p)
                   /\ 1 <= snd p) (monthly_summary filtered) /\
  sumZ (map snd (monthly_summary filtered)) = Z.of_nat (length filtered) /\
  (forall m1 c1 m2 c2, last_two (monthly_summary filtered) = Some ((m1, c1), (m2, c2)) ->
     m1 < m2 /\
     forall r, In r filtered ->
       month_index (order_purchase_timestamp r) <= m2 /\
       ~ (m1 < month_index (order_purchase_timestamp r) < m2)).
Proof.
  destruct (size_groupby_shape (fun r => month_index (order_purchase_timestamp r)) filtered)
    as [Hs [Hall Hsum]].
  unfold monthly_summary. cbv zeta.
  split; [exact Hs|split; [exact Hall|split; [exact Hsum|]]].
  intros m1 c1 m2 c2 Hlt.
  apply (last_two_app _ _ _) in Hlt. destruct Hlt as [pre Hpre].
  rewrite Hpre, map_app in Hs. cbn [map fst] in Hs.
  apply Sorted_StronglySorted in Hs; [|intros a b c; lia].
  split.
  - clear -Hs. induction pre as [|c pre IH]; cbn [map app] in Hs.
    + inversion Hs as [|? ? _ Hf]; subst. inversion Hf; assumption.
    + inversion Hs; subst. auto.
  - intros r Hr. apply (last_two_sorted (map fst pre) m1 m2); [exact Hs|].
    replace (map fst pre ++ [m1; m2]) with (map fst (pre ++ [(m1, c1); (m2, c2)]))
      by (rewrite map_app; reflexivity).
    rewrite <- Hpre, map_map. cbn [fst].
    rewrite map_id. apply (Permutation_in _ (Permutation_sym (isort_perm _ _))), nodup_In.
    apply (in_map (fun r => month_index (order_purchase_timestamp r))). exact Hr.
Qed.

(** ** Tab 2: the peak day and the peak hour *)

Lemma idxmax_go_spec {K} (l : list (K * option Z)) :
  forall best k, idxmax_go best l = Some k ->
  (exists vb, best = Some (k, vb) /\
     forall j k' v', nth_error l j = Some (k', Some v') -> v' <= vb) \/
  (exists i v, nth_error l i = Some (k, Some v) /\
     (forall kb vb, best = Some (kb, vb) -> vb < v) /\
     forall j k' v', nth_error l j = Some (k', Some v') -> v' <= v /\ (v' = v -> (i <= j)%nat)).
Proof.
  induction l as [|[k0 [v|]] l IH]; intros best k H.
  - left. destruct best as [[kb vb]|]; cbn in H; [|discriminate].
    injection H as <-. exists vb. split; [reflexivity|]. intros [|j]; discriminate.
  - (* an entry with a value *)
    assert (Hnew : idxmax_go (Some (k0, v)) l = Some k ->
              exists i w, nth_error ((k0, Some v) :: l) i = Some (k, Some w) /\
                (forall kb vb, best = Some (kb, vb) -> vb < v -> vb < w) /\
                forall j k' v', nth_error ((k0, Some v) :: l) j = Some (k', Some v') ->
                  v' <= w /\ (v' = w -> (i <= j)%nat)).
    { intros Hgo. destruct (IH _ _ Hgo) as [[vb [Hb Hall]]|[i [w [Hi [Hb Hall]]]]].
      - injection Hb as <- <-. exists 0%nat, v. split; [reflexivity|]. split; [auto|].
        intros [|j] k' v' Hj; cbn in Hj.
        + injection Hj as _ <-. lia.
        + specialize (Hall _ _ _ Hj). lia.
      - specialize (Hb _ _ eq_refl).
        exists (S i), w. split; [exact Hi|]. split; [intros; lia|].
        intros [|j] k' v' Hj; cbn in Hj.
        + injection Hj as _ <-. lia.
        + specialize (Hall _ _ _ Hj). lia. }
    destruct best as [[kb vb]|]; cbn in H.
    + destruct (Z.ltb_spec vb v).
      * right. destruct (Hnew H) as [i [w [Hi [Hb Hall]]]].
        exists i, w. split; [exact Hi|]. split; [|exact Hall].
        intros kb' vb' E. injection E as <- <-. apply (Hb kb vb eq_refl). lia.
      * destruct (IH _ _ H) as [[vb' [Hb Hall]]|[i [w [Hi [Hb Hall]]]]].
        -- left. exists vb'. split; [exact Hb|]. injection Hb as -> <-.
           intros [|j] k' v' Hj; cbn in Hj; [injection Hj as _ <-; lia|exact (Hall _ _ _ Hj)].
        -- right. exists (S i), w. split; [exact Hi|]. split; [exact Hb|].
           specialize (Hb _ _ eq_refl).
           intros [|j] k' v' Hj; cbn in Hj.
           ++ injection Hj as _ <-. lia.
           ++ specialize (Hall _ _ _ Hj). lia.
    + right. destruct (Hnew H) as [i [w [Hi [_ Hall]]]].
      exists i, w. split; [exact Hi|]. split; [intros ? ? E; discriminate|exact Hall].
  - (* a NaN entry *)
    cbn in H. destruct (IH _ _ H) as [[vb [Hb Hall]]|[i [w [Hi [Hb Hall]]]]].
    + left. exists vb. split; [exact Hb|].
      intros [|j] k' v' Hj; cbn in Hj; [discriminate|exact (Hall _ _ _ Hj)].
    + right. exists (S i), w. split; [exact Hi|]. split; [exact Hb|].
      intros [|j] k' v' Hj; cbn in Hj; [discriminate|].
      specialize (Hall _ _ _ Hj). lia.
Qed.

Lemma idxmax_spec {K} (l : list (K * option Z)) (k : K) :
  idxmax l = Ok k ->
  exists i v, nth_error l i = Some (k, Some v) /\
    forall j k' v', nth_error l j = Some (k', Some v') -> v' <= v /\ (v' = v -> (i <= j)%nat).
Proof.
  unfold idxmax. destruct (idxmax_go None l) as [k'|] eqn:E; [|discriminate].
  intros H. injection H as <-.
  destruct (idxmax_go_spec l None k' E) as [[vb [Hb _]]|[i [v [Hi [_ Hall]]]]]; [discriminate|].
  exists i, v. auto.
Qed.

Lemma idxmax_go_defined {K} (l : list (K * option Z)) :
  forall best, (best <> None \/ exists k v, In (k, Some v) l) -> idxmax_go best l <> None.
Proof.
  induction l as [|[k0 [v|]] l IH]; intros best H.
  - destruct H as [H|[k [v [] ]]]. destruct best as [[kb vb]|]; [discriminate|contradiction].
  - cbn. destruct best as [[kb vb]|].
    + destruct (vb <? v); apply IH; left; discriminate.
    + apply IH; left; discriminate.
  - cbn. apply IH. destruct H as [H|[k [w [Hin|Hin]]]]; [left; exact H|discriminate|].
    right. exists k, w. exact Hin.
Qed.

Lemma idxmax_defined {K} (l : list (K * option Z)) (k : K) (v : Z) :
  In (k, Some v) l -> exists k', idxmax l = Ok k'.
Proof.
  intros Hin. unfold idxmax.
  destruct (idxmax_go None l) as [k'|] eqn:E; [exists k'; reflexivity|].
  exfalso. exact (idxmax_go_defined l None (or_intror (ex_intro _ k (ex_intro _ v Hin))) E).
Qed.

Lemma nth_error_daily_summary (filtered : list Row) (j : nat) :
  nth_error (daily_summary filtered) j =
  option_map (fun nm => (nm, if (day_count filtered nm =? 0)%nat then None
                            else Some (Z.of_nat (day_count filtered nm))))
    (nth_error weekday_names j).
Proof. unfold daily_summary, day_count. apply nth_error_map. Qed.

(** The peak day of tab 2 (line 379): for a non-empty window, [idxmax]
    finds a day, and it is the first day in Monday..Sunday order whose
    number of transactions is the largest of the seven. *)
Theorem peak_day_first_max (filtered : list Row) :
  filtered <> [] ->
  let cnt := day_count filtered in
  exists i d, peak_day filtered = Ok d /\ nth_error weekday_names i = Some d /\
    forall j d', nth_error weekday_names j = Some d' ->
      (cnt d' <= cnt d)%nat /\ (cnt d' = cnt d -> (i <= j)%nat).
Proof.
  intros Hne cnt. subst cnt.
  assert (Hr : exists r, In r filtered)
    by (destruct filtered as [|r ?]; [contradiction|exists r; left; reflexivity]).
  destruct Hr as [r Hr].
  assert (Hpos : (1 <= day_count filtered (ts_day_name (order_purchase_timestamp r)))%nat).
  { apply (countb_pos _ _ r); [exact Hr|apply String.eqb_refl]. }
  destruct (In_nth_error _ _ (ts_day_name_In (order_purchase_timestamp r))) as [jn Hjn].
  assert (Hin : In (ts_day_name (order_purchase_timestamp r),
                    Some (Z.of_nat (day_count filtered (ts_day_name (order_purchase_timestamp r)))))
                   (daily_summary filtered)).
  { apply nth_error_In with jn. rewrite nth_error_daily_summary, Hjn.
    cbn [option_map].
    destruct (Nat.eqb_spec (day_count filtered (ts_day_name (order_purchase_timestamp r))) 0);
      [lia|reflexivity]. }
  destruct (idxmax_defined _ _ _ Hin) as [d Hd].
  destruct (idxmax_spec _ _ Hd) as [i [v [Hi Hall]]].
  rewrite nth_error_daily_summary in Hi.
  destruct (nth_error weekday_names i) as [di|] eqn:Edi; [|discriminate].
  cbn [option_map] in Hi.
  destruct (Nat.eqb_spec (day_count filtered di) 0) as [E0|E0]; [discriminate|].
  injection Hi as <- <-.
  exists i, di. split; [exact Hd|]. split; [exact Edi|].
  intros j d' Hj.
  destruct (Nat.eqb_spec (day_count filtered d') 0) as [E1|E1]; [lia|].
  assert (Hj' : nth_error (daily_summary filtered) j =
                Some (d', Some (Z.of_nat (day_count filtered d')))).
  { rewrite nth_error_daily_summary, Hj. cbn [option_map].
    destruct (Nat.eqb_spec (day_count filtered d') 0); [lia|reflexivity]. }
  destruct (Hall _ _ _ Hj') as [Hle Heq]. split; [lia|]. intros E. apply Heq. lia.
Qed.

Lemma StronglySorted_nth_error (l : list Z) (i j : nat) (a b : Z) :
  StronglySorted Z.lt l -> (i <= j)%nat ->
  nth_error l i = Some a -> nth_error l j = Some b -> a <= b.
Proof.
  intros Hs. revert i j. induction Hs as [|x l Hs IH Hall]; intros i j Hij Hi Hj.
  - destruct i; discriminate.
  - destruct i as [|i], j as [|j]; cbn in Hi, Hj.
    + injection Hi as <-. injection Hj as <-. lia.
    + injection Hi as <-. apply nth_error_In in Hj.
      eapply Forall_forall in Hall; [|exact Hj]. lia.
    + lia.
    + apply (IH i j); [lia|exact Hi|exact Hj].
Qed.

Lemma peak_hour_keys (filtered : list Row) :
  peak_hour filtered =
  idxmax (map (fun h => (h, Some (Z.of_nat (hour_count filtered h))))
              (isort Z.leb (nodup Z.eq_dec (map (fun r => ts_hour (order_purchase_timestamp r)) filtered)))).
Proof. unfold peak_hour, hourly_summary, hour_count. rewrite map_map. reflexivity. Qed.

(** The peak hour of tab 2 (line 396): for a non-empty window, [idxmax]
    finds an hour that has transactions, no hour of the window has more,
    and of the hours with as many it is the earliest. *)
Theorem peak_hour_first_max (filtered : list Row) :
  filtered <> [] ->
  exists h, peak_hour filtered = Ok h /\ (1 <= hour_count filtered h)%nat /\
    forall r, In r filtered ->
      (hour_count filtered (ts_hour (order_purchase_timestamp r)) <= hour_count filtered h)%nat /\
      (hour_count filtered (ts_hour (order_purchase_timestamp r)) = hour_count filtered h ->
       h <= ts_hour (order_purchase_timestamp r)).
Proof.
  intros Hne.
  set (hs := map (fun r => ts_hour (order_purchase_timestamp r)) filtered).
  set (keys := isort Z.leb (nodup Z.eq_dec hs)).
  assert (Hkeys : forall h, In h keys <-> In h hs).
  { intros h. unfold keys. split; intros H.
    - apply (Permutation_in _ (isort_perm _ _)), nodup_In in H. exact H.
    - apply (Permutation_in _ (Permutation_sym (isort_perm _ _))), nodup_In. exact H. }
  assert (Hsorted : StronglySorted Z.lt keys).
  { apply Sorted_StronglySorted; [intros a b c; lia|].
    apply Sorted_le_lt; [|apply isort_Sorted].
    eapply Permutation_NoDup; [symmetry; apply isort_perm|apply NoDup_nodup]. }
  assert (Hpos : forall h, In h hs -> (1 <= hour_count filtered h)%nat).
  { intros h Hh. apply (countb_pos _ _ h); [exact Hh|apply Z.eqb_refl]. }
  set (g := fun h => (h, Some (Z.of_nat (hour_count filtered h)))).
  assert (Hr : exists r, In r filtered)
    by (destruct filtered as [|r ?]; [contradiction|exists r; left; reflexivity]).
  destruct Hr as [r0 Hr0].
  assert (Hin : In (g (ts_hour (order_purchase_timestamp r0))) (map g keys)).
  { apply in_map, Hkeys, (in_map (fun r => ts_hour (order_purchase_timestamp r))). exact Hr0. }
  destruct (idxmax_defined _ _ _ Hin) as [h Hh].
  assert (Hpk : peak_hour filtered = idxmax (map g keys)) by (rewrite peak_hour_keys; reflexivity).
  exists h. split; [rewrite Hpk; exact Hh|].
  destruct (idxmax_spec _ _ Hh) as [i [v [Hi Hall]]].
  rewrite nth_error_map in Hi.
  destruct (nth_error keys i) as [hi|] eqn:Ehi; [|discriminate].
  cbn [option_map] in Hi. injection Hi as <- <-.
  split; [apply Hpos, Hkeys, nth_error_In with i; exact Ehi|].
  intros r Hr.
  assert (Hk : In (ts_hour (order_purchase_timestamp r)) keys)
    by (apply Hkeys, (in_map (fun r => ts_hour (order_purchase_timestamp r))); exact Hr).
  destruct (In_nth_error _ _ Hk) as [j Hj].
  assert (Hj' : nth_error (map g keys) j = Some (g (ts_hour (order_purchase_timestamp r))))
    by (rewrite nth_error_map, Hj; reflexivity).
  destruct (Hall _ _ _ Hj') as [Hle Heq]. split; [lia|].
  intros E. apply (StronglySorted_nth_error keys i j); [exact Hsorted| |exact Ehi|exact Hj].
  apply Heq. lia.
Qed.

Lemma group_keys_In_inv {A} (key : A -> option string) (rows : list A) k :
  In k (group_keys key rows) -> exists r, In r rows /\ key r = Some k.
Proof.
  unfold group_keys, string_dedup. intros H.
  apply (Permutation_in _ (isort_perm _ _)), nodup_In, in_flat_map in H.
  destruct H as [r [Hr Hk]]. exists r. split; [exact Hr|].
  destruct (key r) as [k'|]; cbn in Hk; [|contradiction].
  destruct Hk as [<-|[]]. reflexivity.
Qed.







(** ** Tab 1: the RFM table *)

Lemma in_merge_left {A B C} (m : A -> B -> bool) (mk : A -> option B -> C)
    (l : list A) (r : list B) (c : C) :
  In c (merge_left m mk l r) <->
  exists a, In a l /\
    ((exists b, In b r /\ m a b = true /\ c = mk a (Some b)) \/
     (filter (m a) r = [] /\ c = mk a None)).
Proof.
  unfold merge_left. rewrite in_flat_map. split.
  - intros [a [Ha Hc]]. exists a. split; [exact Ha|].
    destruct (filter (m a) r) as [|b ms] eqn:E.
    + right. destruct Hc as [<-|[]]. split; reflexivity.
    + left. rewrite <- E in Hc. apply in_map_iff in Hc. destruct Hc as [b' [<- Hb']].
      apply filter_In in Hb'. destruct Hb' as [Hb' Hm]. exists b'. auto.
  - intros [a [Ha [[b [Hb [Hm ->]]]|[E ->]]]]; exists a; split; try exact Ha.
    + destruct (filter (m a) r) as [|b0 ms] eqn:E.
      * exfalso. assert (In b (filter (m a) r)) by (apply filter_In; auto).
        rewrite E in H. exact H.
      * rewrite <- E. apply (in_map (fun b => mk a (Some b))). apply filter_In. auto.
    + rewrite E. left. reflexivity.
Qed.

Lemma remerge_fst (filtered : list Row) (items : list OrderItem) (p : Row * option OrderItem) :
  In p (remerge_items filtered items) -> In (fst p) filtered.
Proof.
  unfold remerge_items. intros H. apply in_merge_left in H.
  destruct H as [a [Ha [[b [_ [_ ->]]]|[_ ->]]]]; exact Ha.
Qed.

Lemma remerge_cover (filtered : list Row) (items : list OrderItem) (r : Row) :
  In r filtered -> exists p, In p (remerge_items filtered items) /\ fst p = r.
Proof.
  intros Hr. unfold remerge_items.
  destruct (filter (fun i => String.eqb (order_id r) (i_order_id i)) items) as [|b ms] eqn:E.
  - exists (r, None). split; [|reflexivity]. apply in_merge_left.
    exists r. split; [exact Hr|]. right. split; [exact E|reflexivity].
  - exists (r, Some b). split; [|reflexivity]. apply in_merge_left.
    exists r. split; [exact Hr|]. left. exists b.
    assert (Hb : In b (filter (fun i => String.eqb (order_id r) (i_order_id i)) items))
      by (rewrite E; left; reflexivity).
    apply filter_In in Hb. destruct Hb as [Hb Hm]. auto.
Qed.

Lemma rfm_keys_iff (filtered : list Row) (items : list OrderItem) (k : string) :
  In k (group_keys (fun p : Row * option OrderItem => customer_unique_id (fst p))
                   (remerge_items filtered items)) <->
  exists r, In r filtered /\ customer_unique_id r = Some k.
Proof.
  split.
  - intros H. destruct (group_keys_In_inv _ _ _ H) as [p [Hp Hk]].
    exists (fst p). split; [exact (remerge_fst _ _ _ Hp)|exact Hk].
  - intros [r [Hr Hk]]. destruct (remerge_cover _ items _ Hr) as [p [Hp <-]].
    exact (group_keys_In _ _ p k Hp Hk).
Qed.

Lemma NoDup_same_length {A} (l1 l2 : list A) :
  NoDup l1 -> NoDup l2 -> (forall x, In x l1 <-> In x l2) -> length l1 = length l2.
Proof.
  intros H1 H2 H. apply Nat.le_antisymm; apply NoDup_incl_length; auto;
    intros x Hx; apply H; exact Hx.
Qed.

Lemma in_customer_ids (filtered : list Row) (k : string) :
  In k (nodup string_dec (flat_map (fun r => opt_list (customer_unique_id r)) filtered)) <->
  exists r, In r filtered /\ customer_unique_id r = Some k.
Proof.
  rewrite nodup_In, in_flat_map. split; intros [r [Hr Hk]]; exists r; split; auto.
  - destruct (customer_unique_id r); cbn in Hk; [|contradiction].
    destruct Hk as [<-|[]]. reflexivity.
  - rewrite Hk. left. reflexivity.
Qed.

Lemma rfm_keys_length (filtered : list Row) (items : list OrderItem) :
  length (group_keys (fun p : Row * option OrderItem => customer_unique_id (fst p))
                     (remerge_items filtered items)) = kpi_total_customers filtered.
Proof.
  unfold kpi_total_customers, nunique, string_dedup.
  apply NoDup_same_length; [apply group_keys_NoDup|apply NoDup_nodup|].
  intros k. rewrite rfm_keys_iff, in_customer_ids. reflexivity.
Qed.

Lemma rfm_score_short (xs : list Z) : (length xs < 2)%nat -> rfm_score xs = Err ValueError.
Proof.
  destruct xs as [|x [|y xs]]; cbn [length]; intros H; [reflexivity| |lia].
  unfold rfm_score. rewrite rank_first_single. reflexivity.
Qed.

Lemma rfm_score_ok (xs : list Z) :
  (2 <= length xs)%nat ->
  exists ss, rfm_score xs = Ok (map Some ss) /\ length ss = length xs /\
             Forall (fun s => 1 <= s <= 4) ss.
Proof.
  intros H. rewrite rfm_score_ranks by exact H.
  eexists. split; [rewrite map_map; reflexivity|].
  split; [rewrite length_map, length_rank_first; reflexivity|].
  apply Forall_map, Forall_forall. intros r _.
  pose proof (rank_label_range (Z.of_nat (length xs)) r). lia.
Qed.

Lemma in_zip3 {A B C} (a : list A) (b : list B) (c : list C) x y z :
  In (x, y, z) (zip3 a b c) -> In x a /\ In y b /\ In z c.
Proof.
  revert b c. induction a as [|x0 a IH]; intros [|y0 b] [|z0 c]; cbn; try tauto.
  intros [E|H]; [injection E as <- <- <-; auto|].
  destruct (IH _ _ H) as [? [? ?]]. auto.
Qed.

Lemma length_zip3 {A B C} (a : list A) (b : list B) (c : list C) :
  length b = length a -> length c = length a -> length (zip3 a b c) = length a.
Proof.
  revert b c. induction a as [|x a IH]; intros [|y b] [|z c]; cbn; try lia.
  intros Hb Hc. rewrite IH; lia.
Qed.

Lemma map_fst_combine {A B} (l1 : list A) (l2 : list B) :
  length l2 = length l1 -> map fst (combine l1 l2) = l1.
Proof.
  revert l2. induction l1 as [|x l1 IH]; intros [|y l2]; cbn; try lia; [reflexivity|].
  intros H. rewrite IH; [reflexivity|lia].
Qed.

(** The RFM table of tab 1 (lines 143-171): building it fails with
    [ValueError] (from [pd.qcut]) exactly when the window has fewer than
    two distinct non-null [customer_unique_id]s, i.e. when the Total
    Customers KPI is below 2; otherwise it has one row per distinct
    customer of the window, and every customer gets an R, F and M score
    between 1 and 4 (none is NaN). *)
Theorem rfm_table_outcome (filtered : list Row) (items : list OrderItem) :
  (rfm_table filtered items = Err ValueError <-> (kpi_total_customers filtered < 2)%nat) /\
  forall t, rfm_table filtered items = Ok t ->
    length t = kpi_total_customers filtered /\
    NoDup (map rfm_customer_unique_id t) /\
    (forall k, In k (map rfm_customer_unique_id t) <->
               exists r, In r filtered /\ customer_unique_id r = Some k) /\
    Forall (fun row => exists r f m, R_score row = Some r /\ F_score row = Some f /\
                         M_score row = Some m /\ 1 <= r <= 4 /\ 1 <= f <= 4 /\ 1 <= m <= 4) t.
Proof.
  unfold rfm_table. cbv zeta.
  set (base := rfm_base (snapshot_date filtered) (remerge_items filtered items)).
  assert (Hkeys : map b_customer_unique_id base =
                  group_keys (fun p : Row * option OrderItem => customer_unique_id (fst p))
                             (remerge_items filtered items)).
  { unfold base, rfm_base. cbv zeta. rewrite map_map. cbn [b_customer_unique_id]. apply map_id. }
  assert (Hlen : length base = kpi_total_customers filtered).
  { rewrite <- (length_map b_customer_unique_id), Hkeys. apply rfm_keys_length. }
  destruct (Nat.lt_ge_cases (length base) 2) as [Hs|Hs].
  - rewrite rfm_score_short by (rewrite length_map; exact Hs). cbn [bind].
    split; [split; [intros _; lia|reflexivity]|intros t E; discriminate].
  - destruct (rfm_score_ok (map b_recency base)) as [rs [Hr [Hrl Hrs]]]; [rewrite length_map; lia|].
    destruct (rfm_score_ok (map b_frequency base)) as [fs [Hf [Hfl Hfs]]]; [rewrite length_map; lia|].
    destruct (rfm_score_ok (map b_monetary base)) as [ms [Hm [Hml Hms]]]; [rewrite length_map; lia|].
    rewrite length_map in Hrl, Hfl, Hml.
    rewrite Hr. cbn [bind]. rewrite Hf. cbn [bind]. rewrite Hm. cbn [bind].
    split; [split; [discriminate|lia]|].
    intros t E. injection E as <-.
    assert (Hz : length (zip3 (map Some rs) (map Some fs) (map Some ms)) = length base)
      by (rewrite length_zip3; rewrite ?length_map; lia).
    assert (Hids : map rfm_customer_unique_id
                     (map (fun '(b, (r, f, m)) =>
                             {| rfm_customer_unique_id := b_customer_unique_id b;
                                recency := b_recency b; frequency := b_frequency b;
                                monetary := b_monetary b;
                                R_score := r; F_score := f; M_score := m;
                                segment := rfm_segment r f m |})
                          (combine base (zip3 (map Some rs) (map Some fs) (map Some ms))))
                   = map b_customer_unique_id base).
    { rewrite map_map.
      transitivity (map b_customer_unique_id
                      (map fst (combine base (zip3 (map Some rs) (map Some fs) (map Some ms))))).
      - rewrite map_map. apply map_ext. intros [b [[r f] m]]. reflexivity.
      - rewrite map_fst_combine by exact Hz. reflexivity. }
    split; [rewrite length_map, length_combine, Hz; lia|].
    rewrite Hids, Hkeys. split; [apply group_keys_NoDup|]. split; [intros k; apply rfm_keys_iff|].
    apply Forall_map, Forall_forall. intros [b [[r f] m]] Hin.
    apply in_combine_r, in_zip3 in Hin. destruct Hin as [Hri [Hfi Hmi]].
    apply in_map_iff in Hri, Hfi, Hmi.
    destruct Hri as [r' [<- Hr']], Hfi as [f' [<- Hf']], Hmi as [m' [<- Hm']].
    cbn. exists r', f', m'.
    pose proof (proj1 (Forall_forall _ _) Hrs r' Hr').
    pose proof (proj1 (Forall_forall _ _) Hfs f' Hf').
    pose proof (proj1 (Forall_forall _ _) Hms m' Hm').
    cbv beta in *. repeat split; auto; lia.
Qed.

Definition rfm_row_of (x : RfmBase * (option Z * option Z * option Z)) : RfmRow :=
  let '(b, (r, f, m)) := x in
  {| rfm_customer_unique_id := b_customer_unique_id b;
     recency := b_recency b; frequency := b_frequency b; monetary := b_monetary b;
     R_score := r; F_score := f; M_score := m; segment := rfm_segment r f m |}.

Lemma rfm_table_Ok (filtered : list Row) (items : list OrderItem) (t : list RfmRow) :
  rfm_table filtered items = Ok t ->
  let base := rfm_base (snapshot_date filtered) (remerge_items filtered items) in
  exists rs fs ms,
    rfm_score (map b_recency base) = Ok rs /\
    rfm_score (map b_frequency base) = Ok fs /\
    rfm_score (map b_monetary base) = Ok ms /\
    t = map rfm_row_of (combine base (zip3 rs fs ms)).
Proof.
  unfold rfm_table. cbv zeta. intros H.
  destruct (rfm_score (map b_recency _)) as [rs|] eqn:Er; [|discriminate]. cbn [bind] in H.
  destruct (rfm_score (map b_frequency _)) as [fs|] eqn:Ef; [|discriminate]. cbn [bind] in H.
  destruct (rfm_score (map b_monetary _)) as [ms|] eqn:Em; [|discriminate]. cbn [bind] in H.
  injection H as <-. exists rs, fs, ms. split; [reflexivity|]. split; [reflexivity|].
  split; [reflexivity|].
  apply map_ext. intros [b [[r f] m]]. reflexivity.
Qed.

Lemma nth_error_combine_inv {A B} (l1 : list A) (l2 : list B) i a b :
  nth_error (combine l1 l2) i = Some (a, b) -> nth_error l1 i = Some a /\ nth_error l2 i = Some b.
Proof.
  revert l2 i. induction l1 as [|x l1 IH]; intros [|y l2] [|i]; cbn; try discriminate.
  - intros E. injection E as <- <-. auto.
  - apply IH.
Qed.

Lemma nth_error_zip3_inv {A B C} (a : list A) (b : list B) (c : list C) i x y z :
  nth_error (zip3 a b c) i = Some (x, y, z) ->
  nth_error a i = Some x /\ nth_error b i = Some y /\ nth_error c i = Some z.
Proof.
  revert b c i. induction a as [|x0 a IH]; intros [|y0 b] [|z0 c] [|i]; cbn; try discriminate.
  - intros E. injection E as <- <- <-. auto.
  - apply IH.
Qed.

(** The row at position [i] of a successful RFM table comes from the
    [i]-th customer of [rfm_base] and the [i]-th entries of the three
    score columns. *)
Lemma rfm_table_nth (filtered : list Row) (items : list OrderItem) (t : list RfmRow) row i :
  rfm_table filtered items = Ok t -> nth_error t i = Some row ->
  let base := rfm_base (snapshot_date filtered) (remerge_items filtered items) in
  exists rs fs ms b,
    rfm_score (map b_recency base) = Ok rs /\
    rfm_score (map b_frequency base) = Ok fs /\
    rfm_score (map b_monetary base) = Ok ms /\
    nth_error base i = Some b /\
    nth_error rs i = Some (R_score row) /\ nth_error fs i = Some (F_score row) /\
    nth_error ms i = Some (M_score row) /\
    recency row = b_recency b /\ frequency row = b_frequency b /\ monetary row = b_monetary b.
Proof.
  intros Ht Hi base. destruct (rfm_table_Ok _ _ _ Ht) as [rs [fs [ms [Hr [Hf [Hm ->]]]]]].
  fold base in Hr, Hf, Hm, Hi |- *.
  rewrite nth_error_map in Hi.
  destruct (nth_error (combine base (zip3 rs fs ms)) i) as [[b [[r f] m]]|] eqn:E; [|cbn in Hi; discriminate].
  cbn [option_map] in Hi. injection Hi as <-.
  apply nth_error_combine_inv in E. destruct E as [Eb Ez].
  apply nth_error_zip3_inv in Ez. destruct Ez as [Er [Ef Em]].
  exists rs, fs, ms, b. cbn. repeat split; assumption.
Qed.

(** [rfm_score] orders its scores like the values: a strictly larger
    value never gets a lower score. *)
Lemma rfm_score_mono_nth (xs : list Z) (os : list (option Z)) i j a b oi oj :
  rfm_score xs = Ok os ->
  nth_error xs i = Some a -> nth_error xs j = Some b -> a < b ->
  nth_error os i = Some oi -> nth_error os j = Some oj ->
  exists si sj, oi = Some si /\ oj = Some sj /\ si <= sj.
Proof.
  intros Hos Ha Hb Hab Hoi Hoj.
  destruct (Nat.lt_ge_cases (length xs) 2) as [Hs|Hs].
  { rewrite rfm_score_short in Hos by exact Hs. discriminate. }
  rewrite rfm_score_ranks in Hos by exact Hs. injection Hos as <-.
  rewrite nth_error_map in Hoi, Hoj.
  destruct (nth_error (rank_first xs) i) as [ri|] eqn:Ei; [|discriminate].
  destruct (nth_error (rank_first xs) j) as [rj|] eqn:Ej; [|discriminate].
  cbn in Hoi, Hoj. injection Hoi as <-. injection Hoj as <-.
  eexists; eexists; split; [reflexivity|]; split; [reflexivity|].
  assert (Hi : (i < length xs)%nat) by (apply nth_error_Some; congruence).
  assert (Hj : (j < length xs)%nat) by (apply nth_error_Some; congruence).
  apply (nth_error_nth _ _ 0) in Ha, Hb, Ei, Ej.
  pose proof (rank_first_lt_value xs i j Hi Hj ltac:(lia)) as Hr.
  rewrite Ei, Ej in Hr.
  pose proof (rank_label_mono (Z.of_nat (length xs)) ri rj ltac:(lia)). lia.
Qed.

(** Scores of the RFM table (lines 157-159) follow the raw values: a
    customer with a strictly larger [recency] (an older last purchase)
    never gets a lower R_score than one with a smaller recency, and
    likewise a larger [frequency] never gets a lower F_score and a larger
    [monetary] never a lower M_score.  So the most recent buyers get the
    lowest R_scores. *)
Theorem rfm_scores_follow_values (filtered : list Row) (items : list OrderItem)
    (t : list RfmRow) (row1 row2 : RfmRow) :
  rfm_table filtered items = Ok t -> In row1 t -> In row2 t ->
  (recency row1 < recency row2 ->
     exists s1 s2, R_score row1 = Some s1 /\ R_score row2 = Some s2 /\ s1 <= s2) /\
  (frequency row1 < frequency row2 ->
     exists s1 s2, F_score row1 = Some s1 /\ F_score row2 = Some s2 /\ s1 <= s2) /\
  (monetary row1 < monetary row2 ->
     exists s1 s2, M_score row1 = Some s1 /\ M_score row2 = Some s2 /\ s1 <= s2).
Proof.
  intros Ht H1 H2.
  destruct (In_nth_error _ _ H1) as [i Hi]. destruct (In_nth_error _ _ H2) as [j Hj].
  destruct (rfm_table_nth _ _ _ _ _ Ht Hi)
    as [rs [fs [ms [b1 [Hr [Hf [Hm [Eb1 [Ri [Fi [Mi [E1 [E2 E3]]]]]]]]]]]]].
  destruct (rfm_table_nth _ _ _ _ _ Ht Hj)
    as [rs' [fs' [ms' [b2 [Hr' [Hf' [Hm' [Eb2 [Rj [Fj [Mj [E1' [E2' E3']]]]]]]]]]]]].
  rewrite Hr in Hr'. injection Hr' as <-.
  rewrite Hf in Hf'. injection Hf' as <-.
  rewrite Hm in Hm'. injection Hm' as <-.
  split; [|split]; intros Hlt.
  - apply (rfm_score_mono_nth _ _ i j (recency row1) (recency row2) _ _ Hr); auto;
      rewrite nth_error_map; [rewrite Eb1, E1|rewrite Eb2, E1']; reflexivity.
  - apply (rfm_score_mono_nth _ _ i j (frequency row1) (frequency row2) _ _ Hf); auto;
      rewrite nth_error_map; [rewrite Eb1, E2|rewrite Eb2, E2']; reflexivity.
  - apply (rfm_score_mono_nth _ _ i j (monetary row1) (monetary row2) _ _ Hm); auto;
      rewrite nth_error_map; [rewrite Eb1, E3|rewrite Eb2, E3']; reflexivity.
Qed.

Lemma fold_max_In (d : Z) (l : list Z) : In (fold_right Z.max d l) (d :: l).
Proof.
  induction l as [|a l IH]; cbn [fold_right]; [left; reflexivity|].
  destruct (Z.max_dec a (fold_right Z.max d l)) as [E|E]; rewrite E.
  - right; left; reflexivity.
  - destruct IH as [IH|IH]; [left; exact IH|right; right; exact IH].
Qed.

Lemma maxZ_In (l : list Z) : l <> [] -> In (maxZ l) l.
Proof.
  destruct l as [|a l]; [contradiction|]. intros _. unfold maxZ. cbn [hd].
  destruct (fold_max_In a (a :: l)) as [E|E]; [rewrite <- E; left; reflexivity|exact E].
Qed.

Lemma sumZ_nonneg (l : list Z) : Forall (fun x => 0 <= x) l -> 0 <= sumZ l.
Proof.
  induction 1 as [|x l Hx _ IH]; unfold sumZ; cbn [fold_right]; [lia|].
  fold (sumZ l). lia.
Qed.

(** Every customer of [rfm_base] comes from a non-empty group of the
    merged rows. *)
Lemma rfm_base_group (filtered : list Row) (items : list OrderItem) (b : RfmBase) :
  let oi := remerge_items filtered items in
  let key := fun p : Row * option OrderItem => customer_unique_id (fst p) in
  In b (rfm_base (snapshot_date filtered) oi) ->
  exists k p, In p (filter (key_is key k) oi) /\
    b_customer_unique_id b = k /\
    b_recency b = (snapshot_date filtered -
                   maxZ (map (fun p => order_purchase_timestamp (fst p))
                             (filter (key_is key k) oi))) / seconds_per_day /\
    b_frequency b = Z.of_nat (nunique (map (fun p => order_id (fst p))
                                           (filter (key_is key k) oi))) /\
    b_monetary b = sumZ (map revenue_x (filter (key_is key k) oi)).
Proof.
  intros oi key Hb. unfold rfm_base in Hb. apply in_map_iff in Hb.
  destruct Hb as [k [<- Hk]]. apply group_keys_In_inv in Hk. destruct Hk as [p [Hp Hkey]].
  exists k, p. repeat split; try reflexivity.
  apply filter_In. split; [exact Hp|]. subst key. unfold key_is. cbv beta in *.
  rewrite Hkey. apply String.eqb_refl.
Qed.

(** Lines 144-155: in every row of a successful RFM table the recency is
    at least one day, since the snapshot lies one day after the latest
    purchase of the window, and the frequency is at least one order.  If
    no price in the window is negative, the monetary value is not
    negative either. *)
Theorem rfm_table_value_bounds (filtered : list Row) (items : list OrderItem)
    (t : list RfmRow) (row : RfmRow) :
  rfm_table filtered items = Ok t -> In row t ->
  1 <= recency row /\ 1 <= frequency row /\
  ((forall r v, In r filtered -> price r = Some v -> 0 <= v) -> 0 <= monetary row).
Proof.
  intros Ht Hrow. destruct (In_nth_error _ _ Hrow) as [i Hi].
  destruct (rfm_table_nth _ _ _ _ _ Ht Hi)
    as [rs [fs [ms [b [_ [_ [_ [Eb [_ [_ [_ [E1 [E2 E3]]]]]]]]]]]]].
  apply nth_error_In in Eb. apply rfm_base_group in Eb.
  destruct Eb as [k [p [Hp [_ [Er [Ef Em]]]]]].
  rewrite E1, E2, E3, Er, Ef, Em. clear E1 E2 E3 Er Ef Em.
  set (g := filter _ _) in *.
  split; [|split].
  - assert (Hne : map (fun p => order_purchase_timestamp (fst p)) g <> [])
      by (destruct g; [contradiction|discriminate]).
    apply maxZ_In, in_map_iff in Hne. destruct Hne as [q [Hq Hqg]].
    assert (Hqf : In (fst q) filtered)
      by (apply (remerge_fst _ items); subst g; apply filter_In in Hqg; tauto).
    pose proof (fold_max_ge (map order_purchase_timestamp filtered)
                  (hd 0 (map order_purchase_timestamp filtered))
                  (order_purchase_timestamp (fst q))
                  (in_map order_purchase_timestamp _ _ Hqf)) as Hle.
    unfold snapshot_date, maxZ in *. rewrite <- Hq. unfold seconds_per_day.
    Z.div_mod_to_equations. lia.
  - unfold nunique.
    assert (Hin : In (order_id (fst p)) (string_dedup (map (fun p => order_id (fst p)) g)))
      by (apply nodup_In, (in_map (fun p => order_id (fst p))), Hp).
    destruct (string_dedup _); [contradiction|cbn [length]; lia].
  - intros Hprice. apply sumZ_nonneg, Forall_forall. intros x Hx.
    apply in_map_iff in Hx. destruct Hx as [q [<- Hqg]]. unfold revenue_x.
    destruct (price (fst q)) as [v|] eqn:Ev; [|lia].
    apply (Hprice (fst q)); [|exact Ev].
    apply (remerge_fst _ items). subst g. apply filter_In in Hqg. tauto.
Qed.

(** ** Tabs 3 and 4 *)

Lemma nunique_pos (l : list string) (x : string) : In x l -> (1 <= nunique l)%nat.
Proof.
  intros Hx. unfold nunique.
  assert (Hin : In x (string_dedup l)) by (apply nodup_In; exact Hx).
  destruct (string_dedup l); [contradiction|cbn [length]; lia].
Qed.

(** A row of [orders_full] has a product id when it has a category (the
    category comes from a product matched on [product_id]), and a
    [customer_unique_id] when it has a state (both come from the same
    customer row). *)
Lemma orders_full_row (d : Data) (r : Row) :
  In r (orders_full d) ->
  (product_category_name r <> None -> product_id r <> None) /\
  (customer_state r <> None -> customer_unique_id r <> None).
Proof.
  unfold orders_full. intros Hr. apply in_merge_left in Hr.
  destruct Hr as [a [Ha Hr]].
  assert (Hstate : customer_state a <> None -> customer_unique_id a <> None).
  { apply in_merge_left in Ha. destruct Ha as [x [Hx Ha]].
    unfold orders_customers in Hx. apply in_merge_left in Hx.
    destruct Hx as [o [_ Hx]].
    destruct Ha as [[b [_ [_ ->]]]|[_ ->]];
      destruct Hx as [[c [_ [_ ->]]]|[_ ->]]; cbn; congruence. }
  destruct Hr as [[p [_ [Hm ->]]]|[_ ->]]; cbn; split; try exact Hstate.
  - intros _. unfold opt_eqb in Hm. destruct (product_id a); [discriminate|discriminate].
  - intros H. contradiction.
Qed.

(** Lines 466-476: in [category_summary], built from [orders_full], every
    category counts at least one order and at least one product, so the
    [AOV = revenue / total_orders] of line 478 never divides by zero. *)
Theorem category_summary_counts_pos (d : Data) :
  Forall (fun c => 1 <= cat_total_orders c /\ 1 <= cat_product_count c)
         (category_summary_of (orders_full d)).
Proof.
  unfold category_summary_of. apply Forall_map, Forall_forall. intros k Hk.
  apply group_keys_In_inv in Hk. destruct Hk as [r [Hr Hkr]].
  assert (Hg : In r (filter (key_is product_category_name k) (orders_full d))).
  { apply filter_In. split; [exact Hr|]. unfold key_is. rewrite Hkr. apply String.eqb_refl. }
  destruct (orders_full_row d r Hr) as [Hp _].
  destruct (product_id r) as [pid|] eqn:Epid; [|exfalso; apply Hp; congruence].
  cbn -[nunique]. split.
  - pose proof (nunique_pos _ _ (in_map order_id _ _ Hg)). lia.
  - assert (Hin : In pid (flat_map (fun r => opt_list (product_id r))
                                   (filter (key_is product_category_name k) (orders_full d))))
      by (apply in_flat_map; exists r; split; [exact Hg|rewrite Epid; left; reflexivity]).
    pose proof (nunique_pos _ _ Hin). lia.
Qed.

(** Lines 462-576: the Key Insights of tab 3 read [category_summary]
    outside the [if not orders_full.empty] guard.  With no rows the name
    is unbound (NameError); with rows but none carrying a category the
    summary is empty and [.iloc[0]] raises IndexError; as soon as one row
    has a category, the three findings are produced. *)
Theorem tab3_insights_outcome (rows : list Row) :
  (rows = [] ->
     tab3_insights (tab3_category_summary rows) = Err (NameError "category_summary")) /\
  (rows <> [] -> (forall r, In r rows -> product_category_name r = None) ->
     tab3_insights (tab3_category_summary rows) = Err IndexError) /\
  ((exists r k, In r rows /\ product_category_name r = Some k) ->
     tab3_insights (tab3_category_summary rows) =
       Ok ["Revenue Driver"; "Portfolio Concentration"; "High-Value Transactions"]).
Proof.
  split; [|split].
  - intros ->. reflexivity.
  - intros Hne Hnone. unfold tab3_category_summary.
    destruct rows as [|r0 rows']; [contradiction|]. cbn [length Nat.eqb].
    unfold tab3_insights, category_summary_of.
    destruct (group_keys product_category_name (r0 :: rows')) as [|k ks] eqn:E; [reflexivity|].
    exfalso. assert (Hk : In k (group_keys product_category_name (r0 :: rows')))
      by (rewrite E; left; reflexivity).
    apply group_keys_In_inv in Hk. destruct Hk as [r [Hr Hkr]].
    rewrite (Hnone r Hr) in Hkr. discriminate.
  - intros [r [k [Hr Hkr]]]. unfold tab3_category_summary.
    destruct rows as [|r0 rows']; [contradiction|]. cbn [length Nat.eqb].
    unfold tab3_insights, category_summary_of.
    pose proof (group_keys_In _ _ _ _ Hr Hkr) as Hk.
    destruct (group_keys product_category_name (r0 :: rows')); [contradiction|reflexivity].
Qed.

(** Lines 587-596: the state revenues of [geo_summary] add up to the
    revenue (NaN counted as 0) of the filtered rows that have a state;
    rows without a state are dropped by [groupby]. *)
Theorem geo_summary_revenue_total (filtered : list Row) :
  sumZ (map geo_total_revenue (geo_summary_of filtered)) =
  sumZ (map revenue0 (filter (has_key customer_state) filtered)).
Proof.
  unfold geo_summary_of. rewrite map_map. cbn [geo_total_revenue].
  apply sum_groups; [apply group_keys_NoDup|].
  intros r k Hr Hk. exact (group_keys_In _ _ _ _ Hr Hk).
Qed.

(** Lines 587-596: over the rows of a date window, every state of
    [geo_summary] counts at least one order and at least one customer. *)
Theorem geo_summary_counts_pos (d : Data) (start_date end_date : Z) :
  Forall (fun g => 1 <= geo_total_orders g /\ 1 <= geo_total_customers g)
         (geo_summary_of (filtered_orders (orders_full d) start_date end_date)).
Proof.
  unfold geo_summary_of. apply Forall_map, Forall_forall. intros k Hk.
  apply group_keys_In_inv in Hk. destruct Hk as [r [Hr Hkr]].
  set (rows := filtered_orders (orders_full d) start_date end_date) in *.
  assert (Hg : In r (filter (key_is customer_state k) rows)).
  { apply filter_In. split; [exact Hr|]. unfold key_is. rewrite Hkr. apply String.eqb_refl. }
  assert (Hfull : In r (orders_full d))
    by (unfold rows, filtered_orders in Hr; apply filter_In in Hr; tauto).
  destruct (orders_full_row d r Hfull) as [_ Hu].
  destruct (customer_unique_id r) as [u|] eqn:Eu; [|exfalso; apply Hu; congruence].
  cbn -[nunique]. split.
  - pose proof (nunique_pos _ _ (in_map order_id _ _ Hg)). lia.
  - assert (Hin : In u (flat_map (fun r => opt_list (customer_unique_id r))
                                 (filter (key_is customer_state k) rows)))
      by (apply in_flat_map; exists r; split; [exact Hg|rewrite Eu; left; reflexivity]).
    pose proof (nunique_pos _ _ Hin). lia.
Qed.

(** Lines 584-741: with no rows in the window tab 4 shows nothing and its
    Key Insights raise NameError on [geo_summary]; with rows but none
    carrying a state the [idxmax] lookups raise ValueError; as soon as one
    row has a state, the tab completes with its three findings. *)
Theorem tab4_outcome (filtered : list Row) :
  (filtered = [] ->
     tab4_body filtered = Ok None /\
     tab4_insights None = Err (NameError "geo_summary")) /\
  (filtered <> [] -> (forall r, In r filtered -> customer_state r = None) ->
     tab4_body filtered = Err ValueError) /\
  ((exists r k, In r filtered /\ customer_state r = Some k) ->
     tab4_body filtered = Ok (Some (geo_summary_of filtered)) /\
     tab4_insights (Some (geo_summary_of filtered)) =
       Ok ["Revenue Stronghold"; "Transaction Hotspot"; "Behavioral Gap Across Regions"]).
Proof.
  split; [|split].
  - intros ->. split; reflexivity.
  - intros Hne Hnone. unfold tab4_body.
    destruct filtered as [|r0 rows']; [contradiction|]. cbn [length Nat.eqb].
    unfold geo_summary_of.
    destruct (group_keys customer_state (r0 :: rows')) as [|k ks] eqn:E; [reflexivity|].
    exfalso. assert (Hk : In k (group_keys customer_state (r0 :: rows')))
      by (rewrite E; left; reflexivity).
    apply group_keys_In_inv in Hk. destruct Hk as [r [Hr Hkr]].
    rewrite (Hnone r Hr) in Hkr. discriminate.
  - intros [r [k [Hr Hkr]]]. unfold tab4_body.
    destruct filtered as [|r0 rows']; [contradiction|]. cbn [length Nat.eqb].
    cbv zeta.
    pose proof (group_keys_In _ _ _ _ Hr Hkr) as Hk.
    destruct (geo_summary_of (r0 :: rows')) as [|g gs] eqn:E.
    { unfold geo_summary_of in E. destruct (group_keys customer_state (r0 :: rows'));
        [contradiction|discriminate]. }
    destruct (idxmax_defined (map (fun g => (geo_state g, Some (geo_total_revenue g))) (g :: gs))
                (geo_state g) (geo_total_revenue g) (or_introl eq_refl)) as [k1 E1].
    destruct (idxmax_defined (map (fun g => (geo_state g, Some (geo_total_orders g))) (g :: gs))
                (geo_state g) (geo_total_orders g) (or_introl eq_refl)) as [k2 E2].
    rewrite E1. cbn [bind]. rewrite E2. cbn [bind]. split; reflexivity.
Qed.

(** ** Customers and orders *)

Lemma NoDup_map_inj {A B} (f : A -> B) (l : list A) (x y : A) :
  NoDup (map f l) -> In x l -> In y l -> f x = f y -> x = y.
Proof.
  induction l as [|a l IH]; cbn [map In]; [tauto|].
  intros Hnd. inversion Hnd as [|b m Hnin Hnd' Heq]; subst.
  intros [<-|Hx] [<-|Hy] Hf; auto.
  - exfalso. apply Hnin. rewrite Hf. apply in_map. exact Hy.
  - exfalso. apply Hnin. rewrite <- Hf. apply in_map. exact Hx.
Qed.

Lemma filter_unique_id (cs : list Customer) (c : Customer) :
  NoDup (map c_customer_id cs) -> In c cs ->
  filter (fun c' => String.eqb (c_customer_id c) (c_customer_id c')) cs = [c].
Proof.
  induction cs as [|a cs IH]; cbn [map In]; [tauto|].
  intros Hnd. inversion Hnd as [|b m Hnin Hnd' Heq]; subst.
  intros [<-|Hc]; cbn [filter].
  - rewrite String.eqb_refl. f_equal.
    destruct (filter _ cs) as [|c' l] eqn:E; [reflexivity|exfalso].
    assert (Hc' : In c' (filter (fun c' => String.eqb (c_customer_id a) (c_customer_id c')) cs))
      by (rewrite E; left; reflexivity).
    apply filter_In in Hc'. destruct Hc' as [Hin Heqb]. apply String.eqb_eq in Heqb.
    apply Hnin. rewrite Heqb. apply in_map. exact Hin.
  - destruct (String.eqb (c_customer_id c) (c_customer_id a)) eqn:E.
    + exfalso. apply String.eqb_eq in E. apply Hnin. rewrite <- E. apply in_map. exact Hc.
    + apply IH; assumption.
Qed.

(** The customer of a row of [orders_full]: the one of its order, looked
    up in [customers] as the merge of line 42 does. *)
Definition order_customer (d : Data) (o : Order) : option string :=
  match filter (fun c => String.eqb (o_customer_id o) (c_customer_id c)) (customers d) with
  | c :: _ => Some (c_customer_unique_id c)
  | [] => None
  end.

Lemma orders_full_order (d : Data) (r : Row) :
  NoDup (map c_customer_id (customers d)) ->
  In r (orders_full d) ->
  exists o, In o (orders d) /\ order_id r = o_order_id o /\
            customer_unique_id r = order_customer d o.
Proof.
  intros Hnd Hr. unfold orders_full in Hr. apply in_merge_left in Hr.
  destruct Hr as [a [Ha Hr]].
  assert (Hfa : order_id r = order_id a /\ customer_unique_id r = customer_unique_id a)
    by (destruct Hr as [[p [_ [_ ->]]]|[_ ->]]; split; reflexivity).
  rewrite (proj1 Hfa), (proj2 Hfa). clear Hr Hfa.
  apply in_merge_left in Ha. destruct Ha as [x [Hx Ha]].
  assert (Hfx : order_id a = order_id x /\ customer_unique_id a = customer_unique_id x)
    by (destruct Ha as [[p [_ [_ ->]]]|[_ ->]]; split; reflexivity).
  rewrite (proj1 Hfx), (proj2 Hfx). clear Ha Hfx.
  unfold orders_customers in Hx. apply in_merge_left in Hx.
  destruct Hx as [o [Ho [[c [Hc [Hm ->]]]|[E ->]]]]; exists o; cbn; repeat split; auto.
  - unfold order_customer. apply String.eqb_eq in Hm. rewrite Hm.
    rewrite (filter_unique_id _ _ Hnd Hc). reflexivity.
  - unfold order_customer. rewrite E. reflexivity.
Qed.

Lemma length_flat_map_le1 {A B} (g : A -> list B) (l : list A) :
  (forall a, (length (g a) <= 1)%nat) -> (length (flat_map g l) <= length l)%nat.
Proof.
  intros Hg. induction l as [|a l IH]; cbn [flat_map length]; [lia|].
  rewrite length_app. specialize (Hg a). lia.
Qed.

(** When the order of a row fixes its customer, there are at most as many
    distinct customers as distinct orders. *)
Lemma nunique_customers_le_orders (rows : list Row) :
  (forall r1 r2, In r1 rows -> In r2 rows -> order_id r1 = order_id r2 ->
                 customer_unique_id r1 = customer_unique_id r2) ->
  (nunique (flat_map (fun r => opt_list (customer_unique_id r)) rows) <=
   nunique (map order_id rows))%nat.
Proof.
  intros Hfd. unfold nunique.
  set (g := fun oid => match find (fun r => String.eqb (order_id r) oid) rows with
                       | Some r => opt_list (customer_unique_id r)
                       | None => []
                       end).
  transitivity (length (flat_map g (string_dedup (map order_id rows)))).
  - apply NoDup_incl_length; [apply NoDup_nodup|]. intros u Hu.
    apply nodup_In, in_flat_map in Hu. destruct Hu as [r [Hr Hu]].
    apply in_flat_map. exists (order_id r). split.
    + apply nodup_In, in_map, Hr.
    + unfold g. destruct (find (fun r' => String.eqb (order_id r') (order_id r)) rows)
        as [r'|] eqn:E.
      * apply find_some in E. destruct E as [Hr' Heq]. apply String.eqb_eq in Heq.
        rewrite (Hfd r' r Hr' Hr Heq). exact Hu.
      * exfalso. apply (find_none _ _ E) in Hr. rewrite String.eqb_refl in Hr. discriminate.
  - apply length_flat_map_le1. intros oid. unfold g.
    destruct (find _ rows) as [r|]; [destruct (customer_unique_id r)|]; cbn; lia.
Qed.

(** Lines 104-110 and 587-596: when order ids and customer ids are keys of
    their tables, the KPI row never shows more customers than orders, and
    neither does any state of [geo_summary]: an order has one customer. *)
Theorem customers_le_orders (d : Data) (start_date end_date : Z) :
  NoDup (map o_order_id (orders d)) ->
  NoDup (map c_customer_id (customers d)) ->
  let filtered := filtered_orders (orders_full d) start_date end_date in
  (kpi_total_customers filtered <= kpi_total_orders filtered)%nat /\
  Forall (fun g => geo_total_customers g <= geo_total_orders g) (geo_summary_of filtered).
Proof.
  intros Hord Hcust filtered.
  assert (Hfd : forall r1 r2, In r1 (orders_full d) -> In r2 (orders_full d) ->
                order_id r1 = order_id r2 -> customer_unique_id r1 = customer_unique_id r2).
  { intros r1 r2 H1 H2 Heq.
    destruct (orders_full_order d r1 Hcust H1) as [o1 [Ho1 [Eid1 Ec1]]].
    destruct (orders_full_order d r2 Hcust H2) as [o2 [Ho2 [Eid2 Ec2]]].
    rewrite Ec1, Ec2. f_equal. apply (NoDup_map_inj o_order_id (orders d)); auto. congruence. }
  assert (Hsub : forall r, In r filtered -> In r (orders_full d))
    by (intros r Hr; unfold filtered, filtered_orders in Hr; apply filter_In in Hr; tauto).
  split.
  - apply nunique_customers_le_orders. intros r1 r2 H1 H2. apply Hfd; auto.
  - unfold geo_summary_of. apply Forall_map, Forall_forall. intros k _. cbn -[nunique].
    apply Nat2Z.inj_le, nunique_customers_le_orders.
    intros r1 r2 H1 H2. apply filter_In in H1, H2. apply Hfd; apply Hsub; tauto.
Qed.

(** ** The merged table and the date window *)

Lemma merge_left_cover {A B C} (m : A -> B -> bool) (mk : A -> option B -> C)
    (l : list A) (r : list B) (a : A) :
  In a l -> exists ob, In (mk a ob) (merge_left m mk l r).
Proof.
  intros Ha. destruct (filter (m a) r) as [|b ms] eqn:E.
  - exists None. apply in_merge_left. exists a. split; [exact Ha|]. right. auto.
  - exists (Some b). apply in_merge_left. exists a. split; [exact Ha|]. left.
    exists b. assert (Hb : In b (filter (m a) r)) by (rewrite E; left; reflexivity).
    apply filter_In in Hb. tauto.
Qed.

(** Lines 42-52: the three left merges neither lose nor invent orders:
    every order has a row in [orders_full] with its id and purchase time,
    and every row of [orders_full] carries the id and purchase time of an
    order. *)
Theorem orders_full_orders (d : Data) :
  (forall o, In o (orders d) ->
     exists r, In r (orders_full d) /\ order_id r = o_order_id o /\
               order_purchase_timestamp r = o_order_purchase_timestamp o) /\
  (forall r, In r (orders_full d) ->
     exists o, In o (orders d) /\ order_id r = o_order_id o /\
               order_purchase_timestamp r = o_order_purchase_timestamp o).
Proof.
  split.
  - intros o Ho. unfold orders_full, orders_customers.
    destruct (merge_left_cover (fun o c => String.eqb (o_customer_id o) (c_customer_id c))
                (fun o oc => {| order_id := o_order_id o;
                                customer_id := o_customer_id o;
                                order_purchase_timestamp := o_order_purchase_timestamp o;
                                customer_unique_id := option_map c_customer_unique_id oc;
                                customer_state := option_map c_customer_state oc;
                                product_id := None; price := None;
                                product_category_name := None |})
                (orders d) (customers d) o Ho) as [oc Hx].
    destruct (merge_left_cover (fun r i => String.eqb (order_id r) (i_order_id i))
                with_item _ (order_items d) _ Hx) as [oi Ha].
    destruct (merge_left_cover (fun r p => opt_eqb (product_id r) (p_product_id p))
                with_product _ (products d) _ Ha) as [op Hr].
    eexists. split; [exact Hr|]. split; reflexivity.
  - intros r Hr. unfold orders_full in Hr. apply in_merge_left in Hr.
    destruct Hr as [a [Ha Hr]].
    assert (Hfa : order_id r = order_id a /\
                  order_purchase_timestamp r = order_purchase_timestamp a)
      by (destruct Hr as [[p [_ [_ ->]]]|[_ ->]]; split; reflexivity).
    rewrite (proj1 Hfa), (proj2 Hfa). clear Hr Hfa.
    apply in_merge_left in Ha. destruct Ha as [x [Hx Ha]].
    assert (Hfx : order_id a = order_id x /\
                  order_purchase_timestamp a = order_purchase_timestamp x)
      by (destruct Ha as [[p [_ [_ ->]]]|[_ ->]]; split; reflexivity).
    rewrite (proj1 Hfx), (proj2 Hfx). clear Ha Hfx.
    unfold orders_customers in Hx. apply in_merge_left in Hx.
    destruct Hx as [o [Ho [[c [_ [_ ->]]]|[_ ->]]]]; exists o; cbn; auto.
Qed.

Lemma merge_left_le1 {A B C} (m : A -> B -> bool) (mk : A -> option B -> C)
    (l : list A) (r : list B) :
  (forall a, In a l -> (countb (m a) r <= 1)%nat) ->
  merge_left m mk l r = map (fun a => mk a (hd_error (filter (m a) r))) l.
Proof.
  unfold merge_left. induction l as [|a l IH]; intros H; [reflexivity|].
  cbn [flat_map]. rewrite IH by (intros x Hx; apply H; right; exact Hx). cbn [map].
  pose proof (H a (or_introl eq_refl)) as Ha. unfold countb in Ha.
  destruct (filter (m a) r) as [|b [|c ms]]; cbn in Ha |- *; [reflexivity|reflexivity|lia].
Qed.

Lemma merge_left_length {A B C} (m : A -> B -> bool) (mk : A -> option B -> C)
    (l : list A) (r : list B) :
  length (merge_left m mk l r) = list_sum (map (fun a => Nat.max 1 (countb (m a) r)) l).
Proof.
  unfold merge_left, countb. induction l as [|a l IH]; [reflexivity|].
  cbn [flat_map]. rewrite length_app, IH. cbn [map list_sum].
  destruct (filter (m a) r) as [|b ms]; cbn [length map]; [reflexivity|].
  rewrite length_map. unfold list_sum. cbn [fold_right]. lia.
Qed.

Lemma countb_key_le1 {A} (f : A -> string) (l : list A) (s : string) :
  NoDup (map f l) -> (countb (fun x => String.eqb s (f x)) l <= 1)%nat.
Proof.
  unfold countb. induction l as [|a l IH]; cbn [map filter]; intros Hnd; [cbn; lia|].
  inversion Hnd as [|b k Hnin Hnd' Heq]; subst.
  destruct (String.eqb s (f a)) eqn:E; [|exact (IH Hnd')].
  apply String.eqb_eq in E. subst s. cbn [length].
  destruct (filter (fun x => String.eqb (f a) (f x)) l) as [|b k] eqn:F; [cbn; lia|].
  exfalso. assert (Hb : In b (filter (fun x => String.eqb (f a) (f x)) l))
    by (rewrite F; left; reflexivity).
  apply filter_In in Hb. destruct Hb as [Hb Heq]. apply String.eqb_eq in Heq.
  apply Hnin. rewrite Heq. apply in_map. exact Hb.
Qed.

(** Lines 42-52: when customer ids and product ids are keys of their
    tables, [orders_full] has one row per order item, plus one row for
    each order without items. *)
Theorem orders_full_length (d : Data) :
  NoDup (map c_customer_id (customers d)) ->
  NoDup (map p_product_id (products d)) ->
  length (orders_full d) =
  list_sum (map (fun o => Nat.max 1 (countb (fun i => String.eqb (o_order_id o) (i_order_id i))
                                            (order_items d)))
                (orders d)).
Proof.
  intros Hc Hp. unfold orders_full.
  rewrite merge_left_le1.
  2:{ intros a _. destruct (product_id a) as [pid|] eqn:E.
      - rewrite (countb_ext _ (fun p => String.eqb pid (p_product_id p)))
          by (intros p; reflexivity).
        apply countb_key_le1, Hp.
      - rewrite (countb_ext _ (fun _ => false))
          by (intros p; reflexivity).
        unfold countb. rewrite filter_false. cbn; lia. }
  rewrite length_map, merge_left_length. unfold orders_customers.
  rewrite merge_left_le1 by (intros o _; apply countb_key_le1, Hc).
  rewrite map_map. reflexivity.
Qed.


(** ** Witnesses of the further properties *)

(** The rows of [two_item_order] in the default window: a Monday and a
    Saturday order. *)
Definition two_item_window : list Row :=
  filtered_orders (orders_full two_item_order) min_date_allowed max_date_allowed.

Lemma peak_day_first_max_witness :
  two_item_window <> [] /\
  let cnt := day_count two_item_window in
  exists i d, peak_day two_item_window = Ok d /\ nth_error weekday_names i = Some d /\
    forall j d', nth_error weekday_names j = Some d' ->
      (cnt d' <= cnt d)%nat /\ (cnt d' = cnt d -> (i <= j)%nat).
Proof.
  assert (Hne : two_item_window <> []) by (intros H; vm_compute in H; discriminate).
  split; [exact Hne|]. exact (peak_day_first_max two_item_window Hne).
Defined.

Lemma peak_hour_first_max_witness :
  two_item_window <> [] /\
  exists h, peak_hour two_item_window = Ok h /\ (1 <= hour_count two_item_window h)%nat /\
    forall r, In r two_item_window ->
      (hour_count two_item_window (ts_hour (order_purchase_timestamp r)) <=
       hour_count two_item_window h)%nat /\
      (hour_count two_item_window (ts_hour (order_purchase_timestamp r)) =
       hour_count two_item_window h ->
       h <= ts_hour (order_purchase_timestamp r)).
Proof.
  assert (Hne : two_item_window <> []) by (intros H; vm_compute in H; discriminate).
  split; [exact Hne|]. exact (peak_hour_first_max two_item_window Hne).
Defined.


Lemma rfm_scores_follow_values_witness :
  exists t row1 row2,
    rfm_table (filtered_orders (orders_full january_february) min_date_allowed max_date_allowed)
              (order_items january_february) = Ok t /\
    In row1 t /\ In row2 t /\ recency row1 < recency row2 /\
    ((recency row1 < recency row2 ->
        exists s1 s2, R_score row1 = Some s1 /\ R_score row2 = Some s2 /\ s1 <= s2) /\
     (frequency row1 < frequency row2 ->
        exists s1 s2, F_score row1 = Some s1 /\ F_score row2 = Some s2 /\ s1 <= s2) /\
     (monetary row1 < monetary row2 ->
        exists s1 s2, M_score row1 = Some s1 /\ M_score row2 = Some s2 /\ s1 <= s2)).
Proof.
  destruct (rfm_table (filtered_orders (orders_full january_february) min_date_allowed
                         max_date_allowed) (order_items january_february)) as [t|] eqn:E;
    [|vm_compute in E; discriminate].
  pose proof E as E'. vm_compute in E'. injection E' as Et. subst t.
  do 3 eexists. split; [exact E|].
  split; [right; left; reflexivity|]. split; [left; reflexivity|].
  split; [vm_compute; reflexivity|].
  apply (rfm_scores_follow_values _ _ _ _ _ E); [right; left; reflexivity|left; reflexivity].
Defined.

Lemma rfm_table_value_bounds_witness :
  exists t row,
    rfm_table (filtered_orders (orders_full january_february) min_date_allowed max_date_allowed)
              (order_items january_february) = Ok t /\
    In row t /\
    (1 <= recency row /\ 1 <= frequency row /\
     ((forall r v, In r (filtered_orders (orders_full january_february)
                          min_date_allowed max_date_allowed) ->
                   price r = Some v -> 0 <= v) -> 0 <= monetary row)).
Proof.
  destruct (rfm_table (filtered_orders (orders_full january_february) min_date_allowed
                         max_date_allowed) (order_items january_february)) as [t|] eqn:E;
    [|vm_compute in E; discriminate].
  pose proof E as E'. vm_compute in E'. injection E' as Et. subst t.
  do 2 eexists. split; [exact E|]. split; [left; reflexivity|].
  apply (rfm_table_value_bounds _ _ _ _ E). left; reflexivity.
Defined.

Lemma customers_le_orders_witness :
  NoDup (map o_order_id (orders january_february)) /\
  NoDup (map c_customer_id (customers january_february)) /\
  let filtered := filtered_orders (orders_full january_february)
                    min_date_allowed max_date_allowed in
  (kpi_total_customers filtered <= kpi_total_orders filtered)%nat /\
  Forall (fun g => geo_total_customers g <= geo_total_orders g) (geo_summary_of filtered).
Proof.
  assert (H1 : NoDup (map o_order_id (orders january_february))).
  { vm_compute. repeat (apply NoDup_cons; [cbn [In]; intuition discriminate|]). apply NoDup_nil. }
  assert (H2 : NoDup (map c_customer_id (customers january_february))).
  { vm_compute. repeat (apply NoDup_cons; [cbn [In]; intuition discriminate|]). apply NoDup_nil. }
  split; [exact H1|]. split; [exact H2|].
  exact (customers_le_orders january_february min_date_allowed max_date_allowed H1 H2).
Defined.

Lemma orders_full_length_witness :
  NoDup (map c_customer_id (customers two_item_order)) /\
  NoDup (map p_product_id (products two_item_order)) /\
  length (orders_full two_item_order) =
  list_sum (map (fun o => Nat.max 1 (countb (fun i => String.eqb (o_order_id o) (i_order_id i))
                                            (order_items two_item_order)))
                (orders two_item_order)).
Proof.
  assert (H1 : NoDup (map c_customer_id (customers two_item_order))).
  { vm_compute. repeat (apply NoDup_cons; [cbn [In]; intuition discriminate|]). apply NoDup_nil. }
  assert (H2 : NoDup (map p_product_id (products two_item_order))).
  { vm_compute. repeat (apply NoDup_cons; [cbn [In]; intuition discriminate|]). apply NoDup_nil. }
  split; [exact H1|]. split; [exact H2|].
  exact (orders_full_length two_item_order H1 H2).
Defined.
